(** * WebAuthn / Touch ID authentication server: ceremony state machine

    Shallow embedding of [src/app.py] (the four ceremony handlers, the
    in-memory challenge dictionary and the two SQLite tables) and the
    properties of the specification checked against it.

    Conventions.
    - A handler is a function from the request, the values the run time
      draws for it (random tokens, clock readings) and the server state
      to an outcome and a new state.
    - Python exceptions are explicit: [HTTPException] for the ones the
      handlers raise, [Unhandled] for the ones nothing catches (the
      framework answers 500).
    - Library code that is not part of the repository (string methods,
      base64, the [webauthn] package) is taken as a parameter, through
      the classes [PyLib] and [Gateway]. *)

From Stdlib Require Import ZArith Ascii String List.
From stdpp Require Import gmap strings list.

Local Open Scope Z_scope.
Local Open Scope string_scope.

(** ** Python values *)

(** [bytes] objects. *)
Definition bytes := list Byte.byte.

(** Truth value of a [bytes] object or of [None]: [if not challenge]. *)
Definition bytes_truthy (b : option bytes) : bool :=
  match b with
  | Some (_ :: _) => true
  | _ => false
  end.

(** Truth value of a [str] or of [None]: [if not session_id]. *)
Definition str_truthy (s : option string) : bool :=
  match s with
  | Some (String _ _) => true
  | _ => false
  end.

(** JSON values, as pydantic hands them to the handlers inside
    [body.credential : dict]. Numbers are kept as integers: the handlers
    only test them for truth. *)
#[warnings="-register-all"]
Inductive json : Type :=
| JNull
| JBool (b : bool)
| JNum (n : Z)
| JStr (s : string)
| JArr (items : list json)
| JObj (fields : list (string * json)).

(** Python truth value of a JSON value. *)
Definition json_truthy (v : json) : bool :=
  match v with
  | JNull => false
  | JBool b => b
  | JNum n => negb (Z.eqb n 0)
  | JStr s => str_truthy (Some s)
  | JArr items => match items with [] => false | _ => true end
  | JObj fields => match fields with [] => false | _ => true end
  end.

(** [body.credential]. *)
Abbreviation Credential := (gmap string json).

(** Exceptions no handler catches. *)
Inductive PyExn : Type :=
| UnicodeDecodeError
| TypeError
| BinasciiError (msg : string)
| IntegrityError (msg : string).

(** ** Library functions used by the handlers *)

Class PyLib : Type := {
  (** [s.strip()] *)
  str_strip : string -> string;
  (** [s.lower()] *)
  str_lower : string -> string;
  (** [s.encode()] *)
  str_encode : string -> bytes;
  (** [b.decode()]; [None] stands for [UnicodeDecodeError] *)
  bytes_decode : bytes -> option string;
  (** [urlsafe_b64encode(b).decode()]: the encoder's output is ASCII, so
      the [decode] never raises *)
  urlsafe_b64encode : bytes -> string;
  (** [urlsafe_b64decode(s)]; [inr] carries the text of [binascii.Error] *)
  urlsafe_b64decode : string -> bytes + string;
}.

(** ** The [webauthn] package *)

Record VerifiedRegistration : Type := {
  credential_id : bytes;
  credential_public_key : bytes;
  sign_count : Z;
}.

Record VerifiedAuthentication : Type := {
  new_sign_count : Z;
}.

(** The two verification entry points. [inr] carries the text of the
    exception the call raised. The arguments are, in order: the
    credential, the expected challenge, the expected RP id, the expected
    origin and, for authentication, the public key and the current sign
    count. *)
Class Gateway : Type := {
  verify_registration_response :
    Credential -> bytes -> string -> string -> VerifiedRegistration + string;
  verify_authentication_response :
    Credential -> bytes -> string -> string -> bytes -> Z ->
    VerifiedAuthentication + string;
}.

(** ** Config *)

Record Config : Type := {
  RP_ID : string;
  ORIGIN : string;
}.

Definition RP_NAME : string := "Touch ID Auth Demo".

(** The part of [s] before the first [":"]: [s.split(":")[0]]. *)
Fixpoint before_colon (s : string) : string :=
  match s with
  | EmptyString => EmptyString
  | String c rest =>
      if Ascii.eqb c ":"%char then EmptyString else String c (before_colon rest)
  end.

(** The module-level configuration, from the [SPACE_HOST] environment
    variable ([""] when unset). *)
Definition config_of (SPACE_HOST : string) : Config :=
  if str_truthy (Some SPACE_HOST)
  then {| RP_ID := before_colon SPACE_HOST; ORIGIN := "https://" +:+ SPACE_HOST |}
  else {| RP_ID := "localhost"; ORIGIN := "http://localhost:7860" |}.

(** ** Database *)

(** A [REAL] timestamp from [time.time()]. The handlers store it and
    never compute with it. *)
Definition timestamp := Z.

Record UserRow : Type := {
  user_id_col : string;
  username_col : string;
  user_created_at : timestamp;
}.

Record CredentialRow : Type := {
  credential_id_col : string;
  cred_user_id : string;
  public_key_col : string;
  sign_count_col : Z;
  cred_created_at : timestamp;
}.

(** The two tables, rows in insertion (rowid) order. *)
Record Database : Type := {
  users : list UserRow;
  credentials : list CredentialRow;
}.

(** The database [init_db] creates on first start. *)
Definition init_db : Database := {| users := []; credentials := [] |}.

(** [SELECT id FROM users WHERE username = ?] with [fetchone()]. *)
Definition select_user_by_username (d : Database) (username : string)
  : option UserRow :=
  List.find (fun u => String.eqb (username_col u) username) (users d).

(** [SELECT credential_id FROM credentials WHERE user_id = ?] with
    [fetchall()]. *)
Definition select_credential_ids (d : Database) (uid : string) : list string :=
  List.map credential_id_col
    (List.filter (fun c => String.eqb (cred_user_id c) uid) (credentials d)).

(** [SELECT credential_id, public_key, sign_count FROM credentials WHERE
    user_id = ?] with [fetchone()]. *)
Definition select_credential_by_user (d : Database) (uid : string)
  : option CredentialRow :=
  List.find (fun c => String.eqb (cred_user_id c) uid) (credentials d).

(** [INSERT INTO users (id, username, created_at) VALUES (?, ?, ?)].
    [id] is the primary key, [username] is [UNIQUE NOT NULL]; a [None]
    parameter is SQL [NULL]. *)
Definition insert_user (d : Database) (uid : string) (username : option string)
    (now : timestamp) : Database + PyExn :=
  match username with
  | None => inr (IntegrityError "NOT NULL constraint failed: users.username")
  | Some name =>
      if existsb (fun u => String.eqb (user_id_col u) uid) (users d)
      then inr (IntegrityError "UNIQUE constraint failed: users.id")
      else if existsb (fun u => String.eqb (username_col u) name) (users d)
      then inr (IntegrityError "UNIQUE constraint failed: users.username")
      else inl {| users := users d ++ [ {| user_id_col := uid;
                                            username_col := name;
                                            user_created_at := now |} ];
                  credentials := credentials d |}
  end.

(** [INSERT INTO credentials (credential_id, user_id, public_key,
    sign_count, created_at) VALUES (?, ?, ?, ?, ?)]. [credential_id] is
    the primary key. *)
Definition insert_credential (d : Database) (cid uid pk : string) (count : Z)
    (now : timestamp) : Database + PyExn :=
  if existsb (fun c => String.eqb (credential_id_col c) cid) (credentials d)
  then inr (IntegrityError "UNIQUE constraint failed: credentials.credential_id")
  else inl {| users := users d;
              credentials := credentials d ++
                [ {| credential_id_col := cid; cred_user_id := uid;
                     public_key_col := pk; sign_count_col := count;
                     cred_created_at := now |} ] |}.

(** [UPDATE credentials SET sign_count = ? WHERE credential_id = ?]. *)
Definition update_sign_count (d : Database) (count : Z) (cid : string)
  : Database :=
  {| users := users d;
     credentials :=
       List.map (fun c =>
                   if String.eqb (credential_id_col c) cid
                   then {| credential_id_col := credential_id_col c;
                           cred_user_id := cred_user_id c;
                           public_key_col := public_key_col c;
                           sign_count_col := count;
                           cred_created_at := cred_created_at c |}
                   else c)
                (credentials d) |}.

(** ** Server state, requests and outcomes *)

(** What the gateway and the random source were asked during a request.
    The log is not in the source: it records the calls a handler makes
    so that "verification is not reached" and "no challenge is generated"
    can be stated. Newest event first. *)
Inductive Event : Type :=
| GenerateRegistrationOptions (challenge : bytes)
| GenerateAuthenticationOptions (challenge : bytes)
| VerifyRegistration (credential : Credential) (expected_challenge : bytes)
| VerifyAuthentication (credential : Credential) (expected_challenge : bytes)
    (credential_public_key : bytes) (credential_current_sign_count : Z).

Record State : Type := {
  (** the module-level [challenges] dictionary *)
  challenges : gmap string bytes;
  (** the committed content of the SQLite file *)
  db : Database;
  (** calls made so far *)
  trace : list Event;
}.

Definition initial_state : State :=
  {| challenges := ∅; db := init_db; trace := [] |}.

Record Request : Type := {
  cookies : gmap string string;
}.

(** The values a request draws from outside: [secrets.token_hex(16)] for
    the session and for the user id, the challenge the options generator
    draws, and the two readings of [time.time()]. *)
Record Oracle : Type := {
  rnd_session_id : string;
  rnd_user_id : string;
  rnd_challenge : bytes;
  clock_user : timestamp;
  clock_credential : timestamp;
}.

Record RegistrationOptions : Type := {
  reg_rp_id : string;
  reg_rp_name : string;
  reg_user_id : bytes;
  reg_user_name : string;
  reg_user_display_name : string;
  reg_challenge : bytes;
}.

Record AuthenticationOptions : Type := {
  auth_rp_id : string;
  auth_allow_credentials : list bytes;
  auth_challenge : bytes;
}.

Inductive ResponseBody : Type :=
| RegistrationOptionsBody (options : RegistrationOptions)
| AuthenticationOptionsBody (options : AuthenticationOptions)
| StatusOk (username : option string).

Inductive Outcome : Type :=
| Ok (body : ResponseBody) (set_cookies : list (string * string))
| HTTPException (status_code : Z) (detail : string)
| Unhandled (e : PyExn).

(** [get_or_create_session]: the session id and the cookies set on the
    response. *)
Definition get_or_create_session (request : Request) (o : Oracle)
  : string * list (string * string) :=
  match cookies request !! "session_id" with
  | Some (String c rest) => (String c rest, [])
  | _ => (rnd_session_id o, [("session_id", rnd_session_id o)])
  end.

(** The three dictionary keys of a session. *)
Definition user_id_key (session_id : string) : string := session_id +:+ "_user_id".
Definition username_key (session_id : string) : string := session_id +:+ "_username".

(** [challenges.pop(key, None)]. *)
Definition pop (key : string) (m : gmap string bytes)
  : option bytes * gmap string bytes :=
  (m !! key, delete key m).

Record RegisterStartRequest : Type := {
  rs_username : string;
}.

Record RegisterFinishRequest : Type := {
  rf_username : string;
  rf_credential : Credential;
}.

Record LoginStartRequest : Type := {
  ls_username : string;
}.

Record LoginFinishRequest : Type := {
  lf_username : string;
  lf_credential : Credential;
}.

(** ** The handlers *)

(** [[urlsafe_b64decode(c + "==") for c in creds]]: the first failure
    ends the comprehension. *)
Fixpoint decode_all (decode : string -> bytes + string) (creds : list string)
  : list bytes + string :=
  match creds with
  | [] => inl []
  | c :: rest =>
      match decode (c +:+ "==") with
      | inr e => inr e
      | inl b =>
          match decode_all decode rest with
          | inr e => inr e
          | inl bs => inl (b :: bs)
          end
      end
  end.

(** ["=" * n] *)
Fixpoint equals_signs (n : nat) : string :=
  match n with
  | O => ""
  | S k => String "="%char (equals_signs k)
  end.

(** [credential.get("rawId") or credential.get("id", "")]; [JNull] is
    Python's [None]. *)
Definition raw_id_of (credential : Credential) : json :=
  let id_or_empty := default (JStr "") (credential !! "id") in
  match credential !! "rawId" with
  | Some v => if json_truthy v then v else id_or_empty
  | None => id_or_empty
  end.

(** [raw_id_b64 + "=" * (-len(raw_id_b64) % 4)]; [None] stands for the
    [TypeError] of [len] or of [+] on anything but a [str]. *)
Definition pad (raw_id_b64 : json) : option string :=
  match raw_id_b64 with
  | JStr s =>
      Some (s +:+ equals_signs (Z.to_nat ((- Z.of_nat (String.length s)) mod 4)))
  | _ => None
  end.

Section Handlers.
Context {L : PyLib} {G : Gateway} (cfg : Config).

(** [x.decode() if isinstance(x, bytes) else x], for [x] a [bytes]
    object or [None]. The outer [None] is [UnicodeDecodeError]. *)
Definition decode_if_bytes (x : option bytes) : option (option string) :=
  match x with
  | None => Some None
  | Some b =>
      match bytes_decode b with
      | None => None
      | Some s => Some (Some s)
      end
  end.

(** [POST /api/register/start] *)
Definition register_start (body : RegisterStartRequest) (request : Request)
    (o : Oracle) (st : State) : Outcome * State :=
  let '(session_id, set_cookies) := get_or_create_session request o in
  let username := str_lower (str_strip (rs_username body)) in
  if negb (str_truthy (Some username))
  then (HTTPException 400 "Username required", st)
  else
    match select_user_by_username (db st) username with
    | Some _ =>
        (HTTPException 409 "Username already registered. Try logging in instead.", st)
    | None =>
        let user_id := rnd_user_id o in
        let options :=
          {| reg_rp_id := RP_ID cfg;
             reg_rp_name := RP_NAME;
             reg_user_id := str_encode user_id;
             reg_user_name := username;
             reg_user_display_name := username;
             reg_challenge := rnd_challenge o |} in
        let d1 := <[session_id := reg_challenge options]> (challenges st) in
        let d2 := <[user_id_key session_id := str_encode user_id]> d1 in
        let d3 := <[username_key session_id := str_encode username]> d2 in
        (Ok (RegistrationOptionsBody options) set_cookies,
         {| challenges := d3;
            db := db st;
            trace := GenerateRegistrationOptions (reg_challenge options) :: trace st |})
    end.

(** [POST /api/register/finish] *)
Definition register_finish (body : RegisterFinishRequest) (request : Request)
    (o : Oracle) (st : State) : Outcome * State :=
  let '(session_id, set_cookies) := get_or_create_session request o in
  let '(challenge, d1) := pop session_id (challenges st) in
  let '(user_id, d2) := pop (user_id_key session_id) d1 in
  let '(username, d3) := pop (username_key session_id) d2 in
  let st1 := {| challenges := d3; db := db st; trace := trace st |} in
  if negb (bytes_truthy challenge) || negb (bytes_truthy user_id)
  then (HTTPException 400 "No pending registration. Start over.", st1)
  else
    let challenge := default [] challenge in
    match bytes_decode (default [] user_id) with
    | None => (Unhandled UnicodeDecodeError, st1)
    | Some user_id =>
        match decode_if_bytes username with
        | None => (Unhandled UnicodeDecodeError, st1)
        | Some username =>
            let credential := rf_credential body in
            let st2 :=
              {| challenges := d3;
                 db := db st;
                 trace := VerifyRegistration credential challenge :: trace st |} in
            match verify_registration_response credential challenge
                    (RP_ID cfg) (ORIGIN cfg) with
            | inr e =>
                (HTTPException 400 ("Registration verification failed: " +:+ e), st2)
            | inl verification =>
                let cred_id := urlsafe_b64encode (credential_id verification) in
                let pub_key := urlsafe_b64encode (credential_public_key verification) in
                (* one connection, one commit: an insert that raises
                   leaves the file as it was *)
                match insert_user (db st) user_id username (clock_user o) with
                | inr e => (Unhandled e, st2)
                | inl db1 =>
                    match insert_credential db1 cred_id user_id pub_key
                            (sign_count verification) (clock_credential o) with
                    | inr e => (Unhandled e, st2)
                    | inl db2 =>
                        (Ok (StatusOk username) set_cookies,
                         {| challenges := d3; db := db2; trace := trace st2 |})
                    end
                end
            end
        end
    end.

(** [POST /api/login/start] *)
Definition login_start (body : LoginStartRequest) (request : Request)
    (o : Oracle) (st : State) : Outcome * State :=
  let '(session_id, set_cookies) := get_or_create_session request o in
  let username := str_lower (str_strip (ls_username body)) in
  match select_user_by_username (db st) username with
  | None => (HTTPException 404 "User not found. Register first.", st)
  | Some user =>
      let creds := select_credential_ids (db st) (user_id_col user) in
      match decode_all urlsafe_b64decode creds with
      | inr e => (Unhandled (BinasciiError e), st)
      | inl allow_credentials =>
          let options :=
            {| auth_rp_id := RP_ID cfg;
               auth_allow_credentials := allow_credentials;
               auth_challenge := rnd_challenge o |} in
          let d1 := <[session_id := auth_challenge options]> (challenges st) in
          let d2 := <[username_key session_id := str_encode username]> d1 in
          (Ok (AuthenticationOptionsBody options) set_cookies,
           {| challenges := d2;
              db := db st;
              trace := GenerateAuthenticationOptions (auth_challenge options) :: trace st |})
      end
  end.

(** The username [login_finish] goes on with:
    [username_bytes.decode() if username_bytes else body.username.strip().lower()].
    [None] is [UnicodeDecodeError]. *)
Definition effective_username (username_bytes : option bytes)
    (body : LoginFinishRequest) : option string :=
  if bytes_truthy username_bytes
  then bytes_decode (default [] username_bytes)
  else Some (str_lower (str_strip (lf_username body))).

(** [POST /api/login/finish] *)
Definition login_finish (body : LoginFinishRequest) (request : Request)
    (o : Oracle) (st : State) : Outcome * State :=
  let '(session_id, set_cookies) := get_or_create_session request o in
  let '(challenge, d1) := pop session_id (challenges st) in
  let '(username_bytes, d2) := pop (username_key session_id) d1 in
  let st1 := {| challenges := d2; db := db st; trace := trace st |} in
  if negb (bytes_truthy challenge)
  then (HTTPException 400 "No pending login. Start over.", st1)
  else
    let challenge := default [] challenge in
    match effective_username username_bytes body with
    | None => (Unhandled UnicodeDecodeError, st1)
    | Some username =>
        match select_user_by_username (db st) username with
        | None => (HTTPException 404 "User not found.", st1)
        | Some user =>
            (* Find the credential used *)
            let credential := lf_credential body in
            let raw_id_b64 := raw_id_of credential in
            match pad raw_id_b64 with
            | None => (Unhandled TypeError, st1)
            | Some padded =>
                match select_credential_by_user (db st) (user_id_col user) with
                | None => (HTTPException 400 "No credentials found for user.", st1)
                | Some cred_row =>
                    match urlsafe_b64decode (public_key_col cred_row +:+ "==") with
                    | inr e => (HTTPException 400 ("Authentication failed: " +:+ e), st1)
                    | inl public_key =>
                        let st2 :=
                          {| challenges := d2;
                             db := db st;
                             trace :=
                               VerifyAuthentication credential challenge public_key
                                 (sign_count_col cred_row) :: trace st |} in
                        match verify_authentication_response credential challenge
                                (RP_ID cfg) (ORIGIN cfg) public_key
                                (sign_count_col cred_row) with
                        | inr e =>
                            (HTTPException 400 ("Authentication failed: " +:+ e), st2)
                        | inl verification =>
                            (* Update sign count *)
                            let db1 :=
                              update_sign_count (db st)
                                (new_sign_count verification)
                                (credential_id_col cred_row) in
                            (Ok (StatusOk (Some username))
                               (set_cookies ++ [("authed_user", username)]),
                             {| challenges := d2; db := db1; trace := trace st2 |})
                        end
                    end
                end
            end
        end
    end.

End Handlers.

(** ** The gateway's counter discipline *)

(** Modelled from the spec: the comparison of the authenticator-reported
    counter with the stored one is made inside [verify_authentication]
    (the [webauthn] package, not in this repository). Section 4.3 asks the
    gateway to reject a reported counter that is not strictly greater than
    the known one, counters of 0 on both sides being tolerated; section 8
    asks a reported counter at or below a stored value greater than 0 to
    fail. *)
Definition counter_rejected (reported known : Z) : bool :=
  (Z.ltb 0 reported || Z.ltb 0 known) && Z.leb reported known.

(** Modelled from the spec: [verify_authentication] of section 4.3. The
    checks other than the counter (signature, challenge, origin, RP id)
    are the parameter [assertion_ok]; [reported] reads the counter out of
    the signed response. On success the result carries the reported
    counter as [new_sign_count]. *)
Definition spec_verify_authentication
    (assertion_ok : Credential -> bytes -> string -> string -> bytes -> bool)
    (reported : Credential -> Z)
    (credential : Credential) (expected_challenge : bytes)
    (expected_rp_id expected_origin : string)
    (credential_public_key : bytes) (credential_current_sign_count : Z)
  : VerifiedAuthentication + string :=
  if negb (assertion_ok credential expected_challenge expected_rp_id
             expected_origin credential_public_key)
  then inr "Invalid authentication response"
  else if counter_rejected (reported credential) credential_current_sign_count
  then inr "Response sign count was not greater than current count"
  else inl {| new_sign_count := reported credential |}.

(** A gateway whose authentication entry point is the one above. *)
Definition spec_gateway
    (verify_registration :
       Credential -> bytes -> string -> string -> VerifiedRegistration + string)
    (assertion_ok : Credential -> bytes -> string -> string -> bytes -> bool)
    (reported : Credential -> Z) : Gateway :=
  {| verify_registration_response := verify_registration;
     verify_authentication_response :=
       spec_verify_authentication assertion_ok reported |}.

(** ** A deterministic stand-in for the libraries

    Used to run the handlers on concrete requests. Text is ASCII; the
    signed response is a dictionary that names the challenge it answers,
    the key it was made with and its counter. *)
Module Demo.

Definition is_space (c : ascii) : bool :=
  let n := nat_of_ascii c in
  (Nat.eqb n 32 || (Nat.leb 9 n && Nat.leb n 13))%bool.

Fixpoint lstrip (s : string) : string :=
  match s with
  | String c rest => if is_space c then lstrip rest else s
  | EmptyString => EmptyString
  end.

Definition strip (s : string) : string :=
  String.rev (lstrip (String.rev (lstrip s))).

Definition lower_char (c : ascii) : ascii :=
  let n := nat_of_ascii c in
  if (Nat.leb 65 n && Nat.leb n 90)%bool then ascii_of_nat (n + 32) else c.

Fixpoint lower (s : string) : string :=
  match s with
  | String c rest => String (lower_char c) (lower rest)
  | EmptyString => EmptyString
  end.

Definition decode (b : bytes) : option string :=
  if forallb (fun x => Nat.ltb (Byte.to_nat x) 128) b
  then Some (string_of_list_byte b)
  else None.

(** A transparent text codec in place of base64: it keeps the text and
    drops ["="] padding, which is all the handlers rely on. *)
Fixpoint drop_padding (s : string) : string :=
  match s with
  | String c rest =>
      if Ascii.eqb c "="%char then drop_padding rest
      else String c (drop_padding rest)
  | EmptyString => EmptyString
  end.

Definition pylib : PyLib :=
  {| str_strip := strip;
     str_lower := lower;
     str_encode := list_byte_of_string;
     bytes_decode := decode;
     urlsafe_b64encode := string_of_list_byte;
     urlsafe_b64decode := fun s => inl (list_byte_of_string (drop_padding s)) |}.

Definition field_str (credential : Credential) (k : string) : string :=
  match credential !! k with
  | Some (JStr s) => s
  | _ => ""
  end.

Definition field_num (credential : Credential) (k : string) : Z :=
  match credential !! k with
  | Some (JNum n) => n
  | _ => 0
  end.

Definition verify_registration (credential : Credential)
    (expected_challenge : bytes) (expected_rp_id expected_origin : string)
  : VerifiedRegistration + string :=
  if String.eqb (field_str credential "challenge")
       (string_of_list_byte expected_challenge)
  then inl {| credential_id := list_byte_of_string (field_str credential "rawId");
              credential_public_key :=
                list_byte_of_string (field_str credential "publicKey");
              sign_count := field_num credential "signCount" |}
  else inr "Client data challenge was not expected challenge".

Definition assertion_ok (credential : Credential) (expected_challenge : bytes)
    (expected_rp_id expected_origin : string) (credential_public_key : bytes)
  : bool :=
  String.eqb (field_str credential "challenge")
    (string_of_list_byte expected_challenge)
  && String.eqb (field_str credential "publicKey")
       (string_of_list_byte credential_public_key).

Definition reported (credential : Credential) : Z :=
  field_num credential "signCount".

Definition gateway : Gateway :=
  spec_gateway verify_registration assertion_ok reported.

Definition cfg : Config := config_of "".

(** A signed response. *)
Definition response (raw_id challenge public_key : string) (count : Z)
  : Credential :=
  <["rawId" := JStr raw_id]>
    (<["challenge" := JStr challenge]>
       (<["publicKey" := JStr public_key]>
          (<["signCount" := JNum count]> ∅))).

(** A request carrying the session cookie [sid]. *)
Definition with_session (sid : string) : Request :=
  {| cookies := <["session_id" := sid]> ∅ |}.

Definition oracle (session user challenge : string) : Oracle :=
  {| rnd_session_id := session;
     rnd_user_id := user;
     rnd_challenge := list_byte_of_string challenge;
     clock_user := 1700000000;
     clock_credential := 1700000000 |}.

End Demo.

(** ** Vocabulary of the properties *)

(** The session a request is served under. *)
Definition session_of (request : Request) (o : Oracle) : string :=
  fst (get_or_create_session request o).

(** A call to one of the two finish endpoints. *)
Inductive FinishCall : Type :=
| RegisterFinish (body : RegisterFinishRequest)
| LoginFinish (body : LoginFinishRequest).

Definition finish {L : PyLib} {G : Gateway} (cfg : Config)
    (call : FinishCall) (request : Request) (o : Oracle) (st : State)
  : Outcome * State :=
  match call with
  | RegisterFinish body => register_finish cfg body request o st
  | LoginFinish body => login_finish cfg body request o st
  end.

(** A run of finish calls, each with its own request and drawn values. *)
Fixpoint finish_all {L : PyLib} {G : Gateway} (cfg : Config)
    (calls : list (FinishCall * Request * Oracle)) (st : State) : State :=
  match calls with
  | [] => st
  | (call, request, o) :: rest =>
      finish_all cfg rest (snd (finish cfg call request o st))
  end.

(** The answer of a finish endpoint that found no challenge to pop. *)
Definition no_pending_ceremony (out : Outcome) : Prop :=
  out = HTTPException 400 "No pending registration. Start over."
  \/ out = HTTPException 400 "No pending login. Start over.".

(** What the gateway answered to the call an event records, when it was
    a failure: the text of the exception. *)
Definition gateway_failure {G : Gateway} (cfg : Config) (ev : Event)
  : option string :=
  match ev with
  | VerifyRegistration credential challenge =>
      match verify_registration_response credential challenge
              (RP_ID cfg) (ORIGIN cfg) with
      | inr e => Some e
      | inl _ => None
      end
  | VerifyAuthentication credential challenge public_key count =>
      match verify_authentication_response credential challenge
              (RP_ID cfg) (ORIGIN cfg) public_key count with
      | inr e => Some e
      | inl _ => None
      end
  | _ => None
  end.

(** The [detail] of the 400 a finish endpoint raises from its [except]
    clause. *)
Definition failure_detail (call : FinishCall) (e : string) : string :=
  match call with
  | RegisterFinish _ => "Registration verification failed: " +:+ e
  | LoginFinish _ => "Authentication failed: " +:+ e
  end.

(** A call to any of the four ceremony endpoints. *)
Inductive Call : Type :=
| RegisterStartCall (body : RegisterStartRequest)
| RegisterFinishCall (body : RegisterFinishRequest)
| LoginStartCall (body : LoginStartRequest)
| LoginFinishCall (body : LoginFinishRequest).

Definition handle {L : PyLib} {G : Gateway} (cfg : Config)
    (call : Call) (request : Request) (o : Oracle) (st : State)
  : Outcome * State :=
  match call with
  | RegisterStartCall body => register_start cfg body request o st
  | RegisterFinishCall body => register_finish cfg body request o st
  | LoginStartCall body => login_start cfg body request o st
  | LoginFinishCall body => login_finish cfg body request o st
  end.

(** The states the server can be in: it starts with an empty dictionary
    and the freshly created tables, and serves requests one after the
    other. *)
Inductive reachable {L : PyLib} {G : Gateway} (cfg : Config) : State -> Prop :=
| reachable_initial : reachable cfg initial_state
| reachable_step (st : State) (call : Call) (request : Request) (o : Oracle) :
    reachable cfg st ->
    reachable cfg (snd (handle cfg call request o st)).

(** Every credential has its owning user and every user has a
    credential. *)
Definition paired (d : Database) : Prop :=
  (forall c, In c (credentials d) ->
             exists u, In u (users d) /\ user_id_col u = cred_user_id c)
  /\ (forall u, In u (users d) ->
                exists c, In c (credentials d) /\ cred_user_id c = user_id_col u).

(** [d'] is [d] with one user row and one credential row of that user
    appended. *)
Definition added_pair (d d' : Database) : Prop :=
  exists u c,
    users d' = (users d ++ [u])%list
    /\ credentials d' = (credentials d ++ [c])%list
    /\ cred_user_id c = user_id_col u.

(** Two facts about UTF-8 that the handlers rely on silently: a
    non-empty [str] encodes to non-empty [bytes], and non-empty [bytes]
    never decode to the empty [str]. *)
Class PyLibLaws (L : PyLib) : Prop := {
  encode_truthy :
    forall s, str_truthy (Some s) = true ->
              bytes_truthy (Some (str_encode s)) = true;
  decode_truthy :
    forall b s, bytes_decode b = Some s ->
                bytes_truthy (Some b) = true ->
                str_truthy (Some s) = true;
}.

(** What the run time draws is never empty: [secrets.token_hex(16)] is 32
    characters and a challenge is 64 bytes. *)
Definition oracle_ok (o : Oracle) : Prop :=
  bytes_truthy (Some (rnd_challenge o)) = true
  /\ str_truthy (Some (rnd_user_id o)) = true.

(** The state after serving a list of requests. *)
Fixpoint serve_all {L : PyLib} {G : Gateway} (cfg : Config)
    (calls : list (Call * Request * Oracle)) (st : State) : State :=
  match calls with
  | [] => st
  | (call, request, o) :: rest =>
      serve_all cfg rest (snd (handle cfg call request o st))
  end.

(** No dictionary entry is empty and no stored username is empty. *)
Definition nothing_empty (st : State) : Prop :=
  (forall (k : string) (v : bytes),
      challenges st !! k = Some v -> bytes_truthy (Some v) = true)
  /\ (forall u, In u (users (db st)) -> str_truthy (Some (username_col u)) = true).

(** ** Session endpoints and the life of the process *)

(** [GET /api/me]: [inl username] is the body [{"username": username}],
    [inr] the status and detail of the [HTTPException]. *)
Definition me (request : Request) : string + Z * string :=
  match cookies request !! "authed_user" with
  | Some (String c rest) => inl (String c rest)
  | _ => inr (401, "Not authenticated")
  end.

(** [POST /api/logout]: the cookies of the response. [delete_cookie]
    sets the cookie to the empty value with [max_age=0]; the body is
    [{"status": "ok"}]. *)
Definition logout : list (string * string) := [("authed_user", "")].

(** The client's side: the cookies of the next request, after a response
    that set [set_cookies] (in that order). *)
Definition next_request (request : Request) (set_cookies : list (string * string))
  : Request :=
  {| cookies :=
       fold_left (fun jar kv => <[fst kv := snd kv]> jar) set_cookies
         (cookies request) |}.

(** The same, for a client that drops a cookie set to the empty value
    with [max_age=0]. *)
Definition next_request_dropping (request : Request)
    (set_cookies : list (string * string)) : Request :=
  {| cookies :=
       fold_left (fun jar kv =>
                    if str_truthy (Some (snd kv))
                    then <[fst kv := snd kv]> jar
                    else delete (fst kv) jar)
         set_cookies (cookies request) |}.


(** [s] has no ["_"]. The tokens of [secrets.token_hex] are hexadecimal
    digits only. *)
Fixpoint no_underscore (s : string) : bool :=
  match s with
  | EmptyString => true
  | String c rest => negb (Ascii.eqb c "_"%char) && no_underscore rest
  end.

(** The rows of a database hold each user id, each username and each
    credential id once. *)
Definition keys_unique (d : Database) : Prop :=
  List.NoDup (List.map user_id_col (users d))
  /\ List.NoDup (List.map username_col (users d))
  /\ List.NoDup (List.map credential_id_col (credentials d)).

(** Credentials and users line up one to one, in insertion order. *)
Definition one_credential_each (d : Database) : Prop :=
  List.map cred_user_id (credentials d) = List.map user_id_col (users d).

(** The identity of a credential row: everything but its counter. *)
Definition credential_identity (c : CredentialRow)
  : string * string * string * timestamp :=
  (credential_id_col c, cred_user_id c, public_key_col c, cred_created_at c).

(** The base64 round trip the handlers rely on: what [urlsafe_b64encode]
    produced decodes back, also with ["=="] appended. *)
Definition b64_round_trip (L : PyLib) : Prop :=
  forall b : bytes, urlsafe_b64decode (urlsafe_b64encode b +:+ "==") = inl b.

(** Every stored credential id and public key is an output of
    [urlsafe_b64encode]. *)
Definition stored_as_b64 {L : PyLib} (d : Database) : Prop :=
  forall c, In c (credentials d) ->
            (exists b, credential_id_col c = urlsafe_b64encode b)
            /\ (exists b, public_key_col c = urlsafe_b64encode b).

(** [d'] is [d] with one user row and one credential row appended, as
    a committed [register_finish] leaves it: the user id, the username and
    the credential id were not in [d], the credential belongs to the user,
    and its id and key are base64 text. *)
Definition registered_pair {L : PyLib} (d d' : Database) : Prop :=
  exists u c,
    users d' = (users d ++ [u])%list
    /\ credentials d' = (credentials d ++ [c])%list
    /\ cred_user_id c = user_id_col u
    /\ ~ In (user_id_col u) (List.map user_id_col (users d))
    /\ ~ In (username_col u) (List.map username_col (users d))
    /\ ~ In (credential_id_col c) (List.map credential_id_col (credentials d))
    /\ (exists b, credential_id_col c = urlsafe_b64encode b)
    /\ (exists b, public_key_col c = urlsafe_b64encode b).

(** What one request can do to the database. *)
Definition db_step {L : PyLib} (d d' : Database) : Prop :=
  d' = d
  \/ registered_pair d d'
  \/ exists count cid, d' = update_sign_count d count cid.

(** A second stand-in for the libraries, whose text codec undoes
    exactly the ["=="] the login handlers append. *)
Module Exact.

Fixpoint drop_two_equals (s : string) : string :=
  match s with
  | String c1 (String c2 EmptyString as rest) =>
      if (Ascii.eqb c1 "="%char && Ascii.eqb c2 "="%char)%bool
      then EmptyString
      else String c1 (drop_two_equals rest)
  | String c rest => String c (drop_two_equals rest)
  | EmptyString => EmptyString
  end.

Definition pylib : PyLib :=
  {| str_strip := Demo.strip;
     str_lower := Demo.lower;
     str_encode := list_byte_of_string;
     bytes_decode := Demo.decode;
     urlsafe_b64encode := string_of_list_byte;
     urlsafe_b64decode := fun s => inl (list_byte_of_string (drop_two_equals s)) |}.

End Exact.

(** A pending challenge of a session without ["_"] in its id comes with
    a pending username. *)
Definition challenge_has_username (st : State) : Prop :=
  forall t : string,
    no_underscore t = true ->
    is_Some (challenges st !! t) ->
    is_Some (challenges st !! username_key t).

(** Every request of the list is served under a session id without
    ["_"], as the ids the server mints are. *)
Definition minted_sessions (calls : list (Call * Request * Oracle)) : Prop :=
  Forall (fun c => no_underscore (session_of (snd (fst c)) (snd c)) = true) calls.

(** ** Dictionary keys *)

Lemma string_length_app (a b : string) :
  String.length (a +:+ b) = (String.length a + String.length b)%nat.
Proof.
  induction a as [|c a IH]; [reflexivity|].
  change (String c a +:+ b) with (String c (a +:+ b)).
  simpl. now rewrite IH.
Qed.

Lemma session_ne_user_id_key (sid : string) : sid <> user_id_key sid.
Proof.
  intros E. apply (f_equal String.length) in E.
  unfold user_id_key in E. rewrite string_length_app in E. simpl in E. lia.
Qed.

Lemma session_ne_username_key (sid : string) : sid <> username_key sid.
Proof.
  intros E. apply (f_equal String.length) in E.
  unfold username_key in E. rewrite string_length_app in E. simpl in E. lia.
Qed.

Lemma user_id_key_ne_username_key (sid : string) :
  user_id_key sid <> username_key sid.
Proof.
  unfold user_id_key, username_key. intros E.
  apply (inj (String.app sid)) in E. discriminate E.
Qed.

(** ** What the finish endpoints do to the dictionary *)

Section FinishFrame.
Context {L : PyLib} {G : Gateway} (cfg : Config).

Lemma register_finish_challenges body request o st :
  challenges (snd (register_finish cfg body request o st)) =
  delete (username_key (session_of request o))
    (delete (user_id_key (session_of request o))
       (delete (session_of request o) (challenges st))).
Proof.
  unfold register_finish, session_of, pop.
  destruct (get_or_create_session request o) as [sid ck]. simpl.
  repeat case_match; reflexivity.
Qed.

Lemma login_finish_challenges body request o st :
  challenges (snd (login_finish cfg body request o st)) =
  delete (username_key (session_of request o))
    (delete (session_of request o) (challenges st)).
Proof.
  unfold login_finish, session_of, pop.
  destruct (get_or_create_session request o) as [sid ck]. simpl.
  repeat case_match; reflexivity.
Qed.

(** A finish call leaves no challenge under its session. *)
Lemma finish_pops call request o st :
  challenges (snd (finish cfg call request o st)) !! session_of request o = None.
Proof.
  destruct call; simpl.
  - rewrite register_finish_challenges.
    rewrite lookup_delete_ne by apply not_eq_sym, session_ne_username_key.
    rewrite lookup_delete_ne by apply not_eq_sym, session_ne_user_id_key.
    apply lookup_delete_eq.
  - rewrite login_finish_challenges.
    rewrite lookup_delete_ne by apply not_eq_sym, session_ne_username_key.
    apply lookup_delete_eq.
Qed.

(** A finish call adds no entry. *)
Lemma finish_adds_nothing call request o st (k : string) :
  challenges st !! k = None ->
  challenges (snd (finish cfg call request o st)) !! k = None.
Proof.
  intros Hk. destruct call; simpl.
  - rewrite register_finish_challenges.
    rewrite !lookup_delete. repeat case_decide; auto.
  - rewrite login_finish_challenges.
    rewrite !lookup_delete. repeat case_decide; auto.
Qed.

Lemma finish_all_adds_nothing calls st (k : string) :
  challenges st !! k = None ->
  challenges (finish_all cfg calls st) !! k = None.
Proof.
  revert st. induction calls as [|[[call request] o] rest IH]; intros st Hk.
  - exact Hk.
  - simpl. apply IH. now apply finish_adds_nothing.
Qed.

(** With no challenge under the session, a finish call answers 400 at
    its guard: nothing is verified and nothing is written. *)
Lemma finish_without_challenge call request o st :
  challenges st !! session_of request o = None ->
  no_pending_ceremony (fst (finish cfg call request o st))
  /\ trace (snd (finish cfg call request o st)) = trace st
  /\ db (snd (finish cfg call request o st)) = db st.
Proof.
  unfold session_of, no_pending_ceremony. intros Hk.
  destruct call; simpl; [unfold register_finish | unfold login_finish];
    unfold pop;
    destruct (get_or_create_session request o) as [sid ck]; simpl in *;
    rewrite Hk; simpl; auto.
Qed.

End FinishFrame.

(** C1. Once a finish call (registration or login) has popped the
    challenge of a session, a later finish call of either kind for the
    same session, whatever signed response it carries and whatever other
    finish calls came in between, answers 400 "no pending ceremony": it
    reaches no verification (the log of gateway calls does not grow) and
    writes nothing. *)
Theorem challenge_is_single_use
    {L : PyLib} {G : Gateway} (cfg : Config)
    (st : State)
    (first : FinishCall) (request1 : Request) (o1 : Oracle)
    (between : list (FinishCall * Request * Oracle))
    (again : FinishCall) (request2 : Request) (o2 : Oracle) :
  session_of request2 o2 = session_of request1 o1 ->
  let st1 := snd (finish cfg first request1 o1 st) in
  let st2 := finish_all cfg between st1 in
  let result := finish cfg again request2 o2 st2 in
  challenges st1 !! session_of request1 o1 = None
  /\ no_pending_ceremony (fst result)
  /\ trace (snd result) = trace st2
  /\ db (snd result) = db st2.
Proof.
  intros Hsame st1 st2 result.
  assert (Hpopped : challenges st1 !! session_of request1 o1 = None)
    by apply finish_pops.
  split; [exact Hpopped|].
  apply finish_without_challenge.
  rewrite Hsame. apply finish_all_adds_nothing. exact Hpopped.
Qed.

Lemma challenge_is_single_use_witness :
  let st :=
    snd (register_start (L:=Demo.pylib) Demo.cfg
           {| rs_username := "alice" |} (Demo.with_session "s")
           (Demo.oracle "f" "u1" "CH1") initial_state) in
  let first :=
    RegisterFinish {| rf_username := "alice";
                      rf_credential := Demo.response "c1" "CH1" "K1" 0 |} in
  let again :=
    LoginFinish {| lf_username := "alice";
                   lf_credential := Demo.response "c1" "CH1" "K1" 1 |} in
  let r := Demo.with_session "s" in
  let o := Demo.oracle "f" "u2" "CH2" in
  session_of r o = session_of r o
  /\ no_pending_ceremony
       (fst (finish (L:=Demo.pylib) (G:=Demo.gateway) Demo.cfg again r o
               (finish_all (L:=Demo.pylib) (G:=Demo.gateway) Demo.cfg
                  [(first, r, o)]
                  (snd (finish (L:=Demo.pylib) (G:=Demo.gateway) Demo.cfg
                          first r o st))))).
Proof.
  intros st first again r o. split; [reflexivity|].
  exact (proj1 (proj2 (challenge_is_single_use (L:=Demo.pylib) (G:=Demo.gateway)
                         Demo.cfg st first r o [(first, r, o)] again r o eq_refl))).
Defined.

(** ** Failures write nothing *)

Section Failures.
Context {L : PyLib} {G : Gateway} (cfg : Config).

(** A finish call that does not answer 200 leaves the database as it
    was. *)
Lemma finish_failure_keeps_db call request o st :
  (forall body cookies, fst (finish cfg call request o st) <> Ok body cookies) ->
  db (snd (finish cfg call request o st)) = db st.
Proof.
  destruct call; simpl; [unfold register_finish | unfold login_finish];
    unfold pop; destruct (get_or_create_session request o) as [sid ck];
    simpl; intros Hfail; repeat case_match; simpl in *;
    try reflexivity; exfalso; eapply Hfail; reflexivity.
Qed.

(** The gateway is asked at most once per finish call, and a failed
    verification is answered with 400. *)
Lemma finish_failed_verification call request o st ev e :
  trace (snd (finish cfg call request o st)) = ev :: trace st ->
  gateway_failure cfg ev = Some e ->
  fst (finish cfg call request o st) = HTTPException 400 (failure_detail call e).
Proof.
  destruct call; simpl; [unfold register_finish | unfold login_finish];
    unfold pop; destruct (get_or_create_session request o) as [sid ck];
    simpl; intros Htr Hfail;
    repeat case_match; simpl in *;
    try (exfalso; apply (f_equal (@List.length Event)) in Htr; simpl in Htr; lia);
    injection Htr as <-; simpl in Hfail;
    repeat case_match; congruence.
Qed.

End Failures.

(** C5. When a finish call (registration or login) reaches the gateway
    and the gateway reports a failure, the call answers 400 with the
    gateway's text and the database is left as it was: no user row, no
    credential row, no sign-count update. *)
Theorem verification_failure_is_400_and_writes_nothing
    {L : PyLib} {G : Gateway} (cfg : Config)
    (call : FinishCall) (request : Request) (o : Oracle) (st : State)
    (ev : Event) (e : string) :
  trace (snd (finish cfg call request o st)) = ev :: trace st ->
  gateway_failure cfg ev = Some e ->
  fst (finish cfg call request o st) = HTTPException 400 (failure_detail call e)
  /\ db (snd (finish cfg call request o st)) = db st.
Proof.
  intros Htr Hfail.
  pose proof (finish_failed_verification cfg call request o st ev e Htr Hfail) as Hout.
  split; [exact Hout|].
  apply finish_failure_keeps_db. intros body cookies. rewrite Hout. discriminate.
Qed.

Lemma verification_failure_is_400_and_writes_nothing_witness :
  let st :=
    snd (register_start (L:=Demo.pylib) Demo.cfg
           {| rs_username := "alice" |} (Demo.with_session "s")
           (Demo.oracle "f" "u1" "CH1") initial_state) in
  let credential := Demo.response "c1" "stale" "K1" 0 in
  let call := RegisterFinish {| rf_username := "alice"; rf_credential := credential |} in
  let r := Demo.with_session "s" in
  let o := Demo.oracle "f" "u2" "CH2" in
  let result := finish (L:=Demo.pylib) (G:=Demo.gateway) Demo.cfg call r o st in
  fst result =
    HTTPException 400
      "Registration verification failed: Client data challenge was not expected challenge"
  /\ db (snd result) = init_db.
Proof.
  intros st credential call r o result.
  exact (verification_failure_is_400_and_writes_nothing
           (L:=Demo.pylib) (G:=Demo.gateway) Demo.cfg call r o st
           (VerifyRegistration credential (list_byte_of_string "CH1"))
           "Client data challenge was not expected challenge"
           eq_refl eq_refl).
Defined.

(** ** Users and credentials go together *)

Lemma paired_init : paired init_db.
Proof. split; intros x []. Qed.

Lemma paired_added_pair (d d' : Database) :
  paired d -> added_pair d d' -> paired d'.
Proof.
  intros [Hc Hu] (u & c & Eu & Ec & Euc). split.
  - intros c' Hin. rewrite Ec in Hin. rewrite Eu.
    apply in_app_or in Hin as [Hin | [<- | []]].
    + destruct (Hc _ Hin) as (u' & Hu' & E). exists u'. split; [|exact E].
      apply in_or_app. now left.
    + exists u. split; [|now symmetry]. apply in_or_app. right. now left.
  - intros u' Hin. rewrite Eu in Hin. rewrite Ec.
    apply in_app_or in Hin as [Hin | [<- | []]].
    + destruct (Hu _ Hin) as (c' & Hc' & E). exists c'. split; [|exact E].
      apply in_or_app. now left.
    + exists c. split; [|exact Euc]. apply in_or_app. right. now left.
Qed.

Lemma paired_update_sign_count (d : Database) (count : Z) (cid : string) :
  paired d -> paired (update_sign_count d count cid).
Proof.
  intros [Hc Hu]. unfold update_sign_count. split; simpl.
  - intros c Hin. apply in_map_iff in Hin as (c0 & E & Hin0).
    destruct (Hc _ Hin0) as (u & Hin_u & Eu). exists u. split; [exact Hin_u|].
    rewrite Eu. subst c. now destruct (String.eqb _ _).
  - intros u Hin. destruct (Hu _ Hin) as (c0 & Hin0 & E).
    eexists. split; [apply in_map; exact Hin0|].
    rewrite <- E. now destruct (String.eqb _ _).
Qed.

Section Pairing.
Context {L : PyLib} {G : Gateway} (cfg : Config).

(** [register_finish] commits both rows or none. *)
Lemma register_finish_db body request o st :
  db (snd (register_finish cfg body request o st)) = db st
  \/ added_pair (db st) (db (snd (register_finish cfg body request o st))).
Proof.
  unfold register_finish, pop.
  destruct (get_or_create_session request o) as [sid ck]. simpl.
  repeat case_match; simpl; auto.
  right.
  match goal with
  | H1 : insert_user _ _ _ _ = inl _, H2 : insert_credential _ _ _ _ _ _ = inl _ |- _ =>
      unfold insert_user in H1; unfold insert_credential in H2;
      repeat case_match; try discriminate;
      injection H1 as <-; injection H2 as <-
  end.
  eexists _, _. simpl. repeat split; reflexivity.
Qed.

Lemma register_start_db body request o st :
  db (snd (register_start cfg body request o st)) = db st.
Proof.
  unfold register_start.
  destruct (get_or_create_session request o) as [sid ck].
  repeat case_match; reflexivity.
Qed.

Lemma login_start_db body request o st :
  db (snd (login_start cfg body request o st)) = db st.
Proof.
  unfold login_start.
  destruct (get_or_create_session request o) as [sid ck].
  repeat case_match; reflexivity.
Qed.

(** [login_finish] writes a sign count or nothing. *)
Lemma login_finish_db body request o st :
  db (snd (login_finish cfg body request o st)) = db st
  \/ exists count cid,
       db (snd (login_finish cfg body request o st)) =
       update_sign_count (db st) count cid.
Proof.
  unfold login_finish, pop.
  destruct (get_or_create_session request o) as [sid ck]. simpl.
  repeat case_match; simpl; eauto.
Qed.

Lemma handle_paired call request o st :
  paired (db st) -> paired (db (snd (handle cfg call request o st))).
Proof.
  intros Hp. destruct call as [body|body|body|body]; simpl.
  - now rewrite register_start_db.
  - destruct (register_finish_db body request o st) as [-> | Hadd];
      [exact Hp | eapply paired_added_pair; eauto].
  - now rewrite login_start_db.
  - destruct (login_finish_db body request o st) as [-> | (n & cid & ->)];
      [exact Hp | now apply paired_update_sign_count].
Qed.

Lemma reachable_paired st : reachable cfg st -> paired (db st).
Proof.
  induction 1 as [|st call request o _ IH].
  - apply paired_init.
  - now apply handle_paired.
Qed.

End Pairing.

(** C6. Registration completion persists the user row and the credential
    row as one unit: a register finish call either leaves the database as
    it was or appends exactly one user and one credential owned by that
    user; hence in every state the server can reach, every credential has
    its owning user and every user has a credential. *)
Theorem user_and_credential_are_one_unit
    {L : PyLib} {G : Gateway} (cfg : Config)
    (st : State) (body : RegisterFinishRequest) (request : Request) (o : Oracle) :
  reachable cfg st ->
  let st' := snd (register_finish cfg body request o st) in
  (db st' = db st \/ added_pair (db st) (db st'))
  /\ paired (db st)
  /\ paired (db st').
Proof.
  intros Hreach st'. split; [apply register_finish_db|].
  split; [now apply (reachable_paired cfg)|].
  apply (reachable_paired cfg).
  exact (reachable_step cfg st (RegisterFinishCall body) request o Hreach).
Qed.

Lemma user_and_credential_are_one_unit_witness :
  let st :=
    snd (register_start (L:=Demo.pylib) Demo.cfg
           {| rs_username := "alice" |} (Demo.with_session "s")
           (Demo.oracle "f" "u1" "CH1") initial_state) in
  let body := {| rf_username := "alice";
                 rf_credential := Demo.response "c1" "CH1" "K1" 0 |} in
  let st' :=
    snd (register_finish (L:=Demo.pylib) (G:=Demo.gateway) Demo.cfg body
           (Demo.with_session "s") (Demo.oracle "f" "u2" "CH2") st) in
  reachable (L:=Demo.pylib) (G:=Demo.gateway) Demo.cfg st
  /\ paired (db st').
Proof.
  intros st body st'.
  assert (Hreach : reachable (L:=Demo.pylib) (G:=Demo.gateway) Demo.cfg st).
  { exact (reachable_step (L:=Demo.pylib) (G:=Demo.gateway) Demo.cfg initial_state
             (RegisterStartCall {| rs_username := "alice" |})
             (Demo.with_session "s") (Demo.oracle "f" "u1" "CH1")
             (reachable_initial Demo.cfg)). }
  split; [exact Hreach|].
  exact (proj2 (proj2 (user_and_credential_are_one_unit
                         (L:=Demo.pylib) (G:=Demo.gateway) Demo.cfg st body
                         (Demo.with_session "s") (Demo.oracle "f" "u2" "CH2")
                         Hreach))).
Defined.

(** ** Login start for an unknown user *)

(** C8. A login start whose username resolves to no registered user
    answers 404 before any challenge is generated: the dictionary is left
    as it was (no entry for the caller's session or any other) and the
    options generator is not called. *)
Theorem login_start_unknown_user_gets_no_challenge
    {L : PyLib} (cfg : Config)
    (body : LoginStartRequest) (request : Request) (o : Oracle) (st : State) :
  select_user_by_username (db st) (str_lower (str_strip (ls_username body))) = None ->
  let result := login_start cfg body request o st in
  fst result = HTTPException 404 "User not found. Register first."
  /\ challenges (snd result) = challenges st
  /\ challenges (snd result) !! session_of request o
     = challenges st !! session_of request o
  /\ trace (snd result) = trace st.
Proof.
  intros Hnone result. subst result. unfold login_start.
  destruct (get_or_create_session request o) as [sid ck].
  rewrite Hnone. simpl. auto.
Qed.

Lemma login_start_unknown_user_gets_no_challenge_witness :
  let result :=
    login_start (L:=Demo.pylib) Demo.cfg {| ls_username := "bob" |}
      (Demo.with_session "s") (Demo.oracle "f" "u1" "CH1") initial_state in
  fst result = HTTPException 404 "User not found. Register first."
  /\ challenges (snd result) !! "s" = None.
Proof.
  intros result.
  pose proof (login_start_unknown_user_gets_no_challenge (L:=Demo.pylib) Demo.cfg
                {| ls_username := "bob" |} (Demo.with_session "s")
                (Demo.oracle "f" "u1" "CH1") initial_state eq_refl) as H.
  split; [exact (proj1 H)|].
  exact (proj1 (proj2 (proj2 H))).
Defined.

(** ** The username of a registration *)

Section RegisterUsername.
Context {L : PyLib} {G : Gateway} (cfg : Config).

(** [register_start] stores the normalized username under the session's
    username key. *)
Lemma register_start_stores body request o st options cookies :
  fst (register_start cfg body request o st) = Ok options cookies ->
  let st1 := snd (register_start cfg body request o st) in
  let sid := session_of request o in
  challenges st1 !! sid = Some (rnd_challenge o)
  /\ challenges st1 !! user_id_key sid = Some (str_encode (rnd_user_id o))
  /\ challenges st1 !! username_key sid
     = Some (str_encode (str_lower (str_strip (rs_username body))))
  /\ select_user_by_username (db st) (str_lower (str_strip (rs_username body))) = None
  /\ db st1 = db st
  /\ trace st1 = GenerateRegistrationOptions (rnd_challenge o) :: trace st.
Proof.
  unfold register_start, session_of.
  destruct (get_or_create_session request o) as [sid ck]. simpl.
  destruct (negb _); [discriminate|].
  destruct (select_user_by_username _ _) eqn:Hsel; [discriminate|].
  simpl. intros _. repeat split.
  - rewrite lookup_insert_ne by apply not_eq_sym, session_ne_username_key.
    rewrite lookup_insert_ne by apply not_eq_sym, session_ne_user_id_key.
    apply lookup_insert_eq.
  - rewrite lookup_insert_ne by apply not_eq_sym, user_id_key_ne_username_key.
    apply lookup_insert_eq.
  - apply lookup_insert_eq.
Qed.

(** A successful [register_finish] returns and persists the decoded
    pending username. *)
Lemma register_finish_username body request o st u cookies :
  fst (register_finish cfg body request o st) = Ok (StatusOk u) cookies ->
  exists pending name row,
    challenges st !! username_key (session_of request o) = Some pending
    /\ bytes_decode pending = Some name
    /\ u = Some name
    /\ users (db (snd (register_finish cfg body request o st)))
       = (users (db st) ++ [row])%list
    /\ username_col row = name.
Proof.
  unfold register_finish, session_of, pop.
  destruct (get_or_create_session request o) as [sid ck]. simpl.
  rewrite !lookup_delete_ne
    by first [ apply session_ne_user_id_key
             | apply session_ne_username_key
             | apply user_id_key_ne_username_key ].
  destruct (challenges st !! username_key sid) as [pending|] eqn:Hpending;
    unfold decode_if_bytes;
    repeat case_match; simpl; try discriminate;
    intros [= <- <-];
    match goal with
    | H1 : insert_user _ _ _ _ = inl _, H2 : insert_credential _ _ _ _ _ _ = inl _ |- _ =>
        unfold insert_user in H1; unfold insert_credential in H2;
        repeat case_match; try discriminate;
        injection H1 as <-; injection H2 as <-
    end.
  simplify_eq. eexists _, _, _. simpl.
  split; [reflexivity|]. split; [eassumption|]. repeat split; reflexivity.
Qed.

End RegisterUsername.

(** C10. Register finish never reads the username field of its request
    body: two finish requests that differ only in that field have the same
    outcome and leave the same state. The username a successful finish
    returns and writes in the user row is the decoded pending username of
    the session, which register start stored as the normalized (stripped,
    lower-cased) name. *)
Theorem register_finish_never_reads_body_username
    {L : PyLib} {G : Gateway} (cfg : Config)
    (st : State) (request : Request) (o : Oracle)
    (credential : Credential) (name1 name2 : string) :
  let r1 := register_finish cfg {| rf_username := name1; rf_credential := credential |}
              request o st in
  let r2 := register_finish cfg {| rf_username := name2; rf_credential := credential |}
              request o st in
  r1 = r2
  /\ (forall u cookies,
        fst r1 = Ok (StatusOk u) cookies ->
        exists pending name row,
          challenges st !! username_key (session_of request o) = Some pending
          /\ bytes_decode pending = Some name
          /\ u = Some name
          /\ users (db (snd r1)) = (users (db st) ++ [row])%list
          /\ username_col row = name)
  /\ (forall body0 request0 o0 st0 options cookies,
        fst (register_start cfg body0 request0 o0 st0) = Ok options cookies ->
        challenges (snd (register_start cfg body0 request0 o0 st0))
          !! username_key (session_of request0 o0)
        = Some (str_encode (str_lower (str_strip (rs_username body0))))).
Proof.
  intros r1 r2. split; [reflexivity|]. split.
  - intros u cookies Hok. now apply register_finish_username in Hok.
  - intros body0 request0 o0 st0 options cookies Hok.
    now apply (register_start_stores cfg) in Hok.
Qed.

(** ** One dictionary for both ceremonies *)

Section SharedKeys.
Context {L : PyLib} {G : Gateway} (cfg : Config).

(** When the guard of [login_finish] passes, the call does not answer
    "No pending login", and a gateway call it makes carries the popped
    challenge. *)
Lemma login_finish_with_challenge body request o st challenge :
  challenges st !! session_of request o = Some challenge ->
  bytes_truthy (Some challenge) = true ->
  fst (login_finish cfg body request o st)
    <> HTTPException 400 "No pending login. Start over."
  /\ (forall ev,
        trace (snd (login_finish cfg body request o st)) = ev :: trace st ->
        exists public_key count,
          ev = VerifyAuthentication (lf_credential body) challenge public_key count).
Proof.
  unfold login_finish, session_of, pop.
  destruct (get_or_create_session request o) as [sid ck]. simpl.
  intros -> Htruthy.
  destruct challenge as [|c0 cs]; [discriminate Htruthy|]. simpl.
  split.
  - repeat case_match; simpl; try discriminate;
      intros [= E]; apply (f_equal (String.get 0)) in E; discriminate E.
  - intros ev.
    repeat case_match; simpl; intros Htr;
      try (exfalso; apply (f_equal (@List.length Event)) in Htr; simpl in Htr; lia);
      injection Htr as <-; eauto.
Qed.

End SharedKeys.

(** C9. The dictionary key carries no ceremony type. After a register
    start on a session, a login finish on the same session finds the
    challenge issued for the registration: it does not answer "No pending
    login", it pops that challenge (a gateway call it makes would carry
    it) together with the pending username, and it leaves the
    registration's pending user id behind in the dictionary. *)
Theorem login_finish_takes_registration_challenge
    {L : PyLib} {G : Gateway} (cfg : Config)
    (st : State) (body : RegisterStartRequest) (request : Request) (o : Oracle)
    (options : ResponseBody) (cookies : list (string * string))
    (body2 : LoginFinishRequest) (request2 : Request) (o2 : Oracle) :
  fst (register_start cfg body request o st) = Ok options cookies ->
  bytes_truthy (Some (rnd_challenge o)) = true ->
  session_of request2 o2 = session_of request o ->
  let sid := session_of request o in
  let st1 := snd (register_start cfg body request o st) in
  let result := login_finish cfg body2 request2 o2 st1 in
  challenges st1 !! sid = Some (rnd_challenge o)
  /\ fst result <> HTTPException 400 "No pending login. Start over."
  /\ (forall ev,
        trace (snd result) = ev :: trace st1 ->
        exists public_key count,
          ev = VerifyAuthentication (lf_credential body2) (rnd_challenge o)
                 public_key count)
  /\ challenges (snd result) !! sid = None
  /\ challenges (snd result) !! username_key sid = None
  /\ challenges (snd result) !! user_id_key sid = Some (str_encode (rnd_user_id o)).
Proof.
  intros Hok Htruthy Hsame sid st1 result.
  destruct (register_start_stores cfg body request o st options cookies Hok)
    as (Hch & Huid & _).
  fold sid st1 in Hch, Huid.
  assert (Hch2 : challenges st1 !! session_of request2 o2 = Some (rnd_challenge o))
    by (rewrite Hsame; exact Hch).
  destruct (login_finish_with_challenge cfg body2 request2 o2 st1 _ Hch2 Htruthy)
    as [Hnot Hev].
  split; [exact Hch|]. split; [exact Hnot|]. split; [exact Hev|].
  subst result. rewrite login_finish_challenges, Hsame. fold sid.
  split; [|split].
  - rewrite lookup_delete_ne by apply not_eq_sym, session_ne_username_key.
    apply lookup_delete_eq.
  - apply lookup_delete_eq.
  - rewrite lookup_delete_ne by apply not_eq_sym, user_id_key_ne_username_key.
    rewrite lookup_delete_ne by apply session_ne_user_id_key.
    exact Huid.
Qed.

Lemma login_finish_takes_registration_challenge_witness :
  let st1 :=
    snd (register_start (L:=Demo.pylib) Demo.cfg {| rs_username := "alice" |}
           (Demo.with_session "s") (Demo.oracle "f" "u1" "CH1") initial_state) in
  let result :=
    login_finish (L:=Demo.pylib) (G:=Demo.gateway) Demo.cfg
      {| lf_username := "alice"; lf_credential := Demo.response "c1" "CH1" "K1" 1 |}
      (Demo.with_session "s") (Demo.oracle "f" "u2" "CH2") st1 in
  fst result <> HTTPException 400 "No pending login. Start over."
  /\ challenges (snd result) !! "s_user_id" = Some (list_byte_of_string "u1").
Proof.
  intros st1 result.
  pose proof (login_finish_takes_registration_challenge
                (L:=Demo.pylib) (G:=Demo.gateway) Demo.cfg initial_state
                {| rs_username := "alice" |} (Demo.with_session "s")
                (Demo.oracle "f" "u1" "CH1") _ _
                {| lf_username := "alice";
                   lf_credential := Demo.response "c1" "CH1" "K1" 1 |}
                (Demo.with_session "s") (Demo.oracle "f" "u2" "CH2")
                eq_refl eq_refl eq_refl) as H.
  split; [exact (proj1 (proj2 H))|].
  exact (proj2 (proj2 (proj2 (proj2 (proj2 H))))).
Defined.

(** ** The username of a login *)

Section LoginUsername.
Context {L : PyLib} {G : Gateway} (cfg : Config).

(** The outcome of [login_finish] depends on the body only through its
    credential and the effective username. *)
Lemma login_finish_by_effective_username body1 body2 request o st :
  lf_credential body1 = lf_credential body2 ->
  effective_username (challenges st !! username_key (session_of request o)) body1
  = effective_username (challenges st !! username_key (session_of request o)) body2 ->
  login_finish cfg body1 request o st = login_finish cfg body2 request o st.
Proof.
  unfold login_finish, session_of, pop.
  destruct (get_or_create_session request o) as [sid ck]. simpl.
  rewrite lookup_delete_ne by apply session_ne_username_key.
  intros -> ->. reflexivity.
Qed.

(** A successful [login_finish] returns the effective username. *)
Lemma login_finish_returns_effective_username body request o st u cookies :
  fst (login_finish cfg body request o st) = Ok (StatusOk u) cookies ->
  u = effective_username (challenges st !! username_key (session_of request o)) body.
Proof.
  unfold login_finish, session_of, pop.
  destruct (get_or_create_session request o) as [sid ck]. simpl.
  rewrite lookup_delete_ne by apply session_ne_username_key.
  repeat case_match; simpl; try discriminate. now intros [= <- _].
Qed.

(** Without a session-bound username the hint of the body is used. *)
Lemma effective_username_fallback body :
  effective_username None body = Some (str_lower (str_strip (lf_username body))).
Proof. reflexivity. Qed.

End LoginUsername.

(** C4. At login finish the effective username is the one bound to the
    session whenever the dictionary holds one (a non-empty value under the
    session's username key): the call then behaves the same whatever the
    username field of the request body says, and a successful call returns
    the decoded bound value. The body's username is only read when the
    session has none. *)
Theorem login_finish_prefers_session_username
    {L : PyLib} {G : Gateway} (cfg : Config)
    (st : State) (request : Request) (o : Oracle)
    (credential : Credential) (hint1 hint2 : string) (bound : bytes) :
  challenges st !! username_key (session_of request o) = Some bound ->
  bytes_truthy (Some bound) = true ->
  let body1 := {| lf_username := hint1; lf_credential := credential |} in
  let body2 := {| lf_username := hint2; lf_credential := credential |} in
  effective_username (Some bound) body1 = bytes_decode bound
  /\ login_finish cfg body1 request o st = login_finish cfg body2 request o st
  /\ (forall u cookies,
        fst (login_finish cfg body1 request o st) = Ok (StatusOk u) cookies ->
        u = bytes_decode bound)
  /\ effective_username None body1 = Some (str_lower (str_strip hint1)).
Proof.
  intros Hbound Htruthy body1 body2.
  assert (Heff : forall body, effective_username (Some bound) body = bytes_decode bound).
  { intros body. unfold effective_username. now rewrite Htruthy. }
  split; [apply Heff|]. split; [|split].
  - apply login_finish_by_effective_username; [reflexivity|].
    rewrite Hbound, !Heff. reflexivity.
  - intros u cookies Hok.
    apply login_finish_returns_effective_username in Hok.
    now rewrite Hbound, Heff in Hok.
  - reflexivity.
Qed.

Lemma login_finish_prefers_session_username_witness :
  let st :=
    {| challenges :=
         <["s" := list_byte_of_string "CH1"]>
           (<["s_username" := list_byte_of_string "alice"]> ∅);
       db := {| users := [ {| user_id_col := "u1"; username_col := "alice";
                              user_created_at := 0 |} ];
                credentials := [ {| credential_id_col := "c1"; cred_user_id := "u1";
                                    public_key_col := "K1"; sign_count_col := 0;
                                    cred_created_at := 0 |} ] |};
       trace := [] |} in
  let credential := Demo.response "c1" "CH1" "K1" 1 in
  let request := Demo.with_session "s" in
  let o := Demo.oracle "f" "u2" "CH2" in
  login_finish (L:=Demo.pylib) (G:=Demo.gateway) Demo.cfg
    {| lf_username := "alice"; lf_credential := credential |} request o st
  = login_finish (L:=Demo.pylib) (G:=Demo.gateway) Demo.cfg
      {| lf_username := "mallory"; lf_credential := credential |} request o st.
Proof.
  intros st credential request o.
  exact (proj1 (proj2 (login_finish_prefers_session_username
                         (L:=Demo.pylib) (G:=Demo.gateway) Demo.cfg st request o
                         credential "alice" "mallory" (list_byte_of_string "alice")
                         eq_refl eq_refl))).
Defined.

(** ** Dictionary entries are never empty *)

Lemma demo_pylib_laws : PyLibLaws Demo.pylib.
Proof.
  split.
  - intros [|c s] H; [discriminate H | reflexivity].
  - intros [|x b] s Hdec H; [discriminate H|].
    simpl in Hdec. unfold Demo.decode in Hdec.
    destruct (forallb _ _); [|discriminate Hdec].
    injection Hdec as <-. reflexivity.
Qed.

Lemma find_some_eqb {A : Type} (key : A -> string) (k : string) (l : list A) (x : A) :
  List.find (fun y => String.eqb (key y) k) l = Some x -> In x l /\ key x = k.
Proof.
  intros H. apply List.find_some in H as [Hin Heq].
  split; [exact Hin | now apply String.eqb_eq].
Qed.

Section NothingEmpty.
Context {L : PyLib} {G : Gateway} {Laws : PyLibLaws L} (cfg : Config).

Lemma nothing_empty_initial : nothing_empty initial_state.
Proof.
  split; [|intros u []].
  intros k v H. simpl in H. now rewrite lookup_empty in H.
Qed.

Lemma register_finish_writes_on_ok body request o st :
  db (snd (register_finish cfg body request o st)) = db st
  \/ exists u cookies,
       fst (register_finish cfg body request o st) = Ok (StatusOk u) cookies.
Proof.
  unfold register_finish, pop.
  destruct (get_or_create_session request o) as [sid ck]. simpl.
  repeat case_match; simpl; eauto.
Qed.

Lemma handle_nothing_empty call request o st :
  oracle_ok o -> nothing_empty st ->
  nothing_empty (snd (handle cfg call request o st)).
Proof.
  intros [Hchal Huid] [Hdict Hnames].
  destruct call as [body|body|body|body]; simpl.
  - (* register_start *)
    split; [|rewrite register_start_db; exact Hnames].
    unfold register_start.
    destruct (get_or_create_session request o) as [sid ck].
    destruct (str_lower (str_strip (rs_username body))) as [|c rest];
      simpl; [exact Hdict|].
    destruct (select_user_by_username _ _); simpl; [exact Hdict|].
    intros k v. rewrite !lookup_insert.
    repeat case_decide; intros Hv; simplify_eq; eauto using encode_truthy.
  - (* register_finish *)
    split.
    + intros k v Hv. destruct (challenges st !! k) as [v0|] eqn:Hk.
      * rewrite register_finish_challenges in Hv.
        rewrite !lookup_delete in Hv. repeat case_decide; try discriminate.
        rewrite Hk in Hv. injection Hv as <-. eauto.
      * change (register_finish cfg body request o st)
          with (finish cfg (RegisterFinish body) request o st) in Hv.
        now rewrite (finish_adds_nothing cfg _ _ _ _ _ Hk) in Hv.
    + destruct (register_finish_writes_on_ok body request o st)
        as [-> | (u & cookies & Hok)]; [exact Hnames|].
      destruct (register_finish_username cfg _ _ _ _ _ _ Hok)
        as (pending & name & row & Hp & Hdec & _ & -> & Hrow).
      intros u' Hin. apply in_app_or in Hin as [Hin | [<- | []]]; [eauto|].
      rewrite Hrow. eapply decode_truthy; eauto.
  - (* login_start *)
    split; [|rewrite login_start_db; exact Hnames].
    unfold login_start.
    destruct (get_or_create_session request o) as [sid ck].
    destruct (select_user_by_username _ _) as [user|] eqn:Hsel; simpl; [|exact Hdict].
    destruct (decode_all _ _); simpl; [|exact Hdict].
    apply find_some_eqb in Hsel as [Hin Hname].
    intros k v. rewrite !lookup_insert.
    repeat case_decide; intros Hv; simplify_eq; eauto.
    apply encode_truthy. rewrite <- Hname. eauto.
  - (* login_finish *)
    split.
    + intros k v Hv. destruct (challenges st !! k) as [v0|] eqn:Hk.
      * rewrite login_finish_challenges in Hv.
        rewrite !lookup_delete in Hv. repeat case_decide; try discriminate.
        rewrite Hk in Hv. injection Hv as <-. eauto.
      * change (login_finish cfg body request o st)
          with (finish cfg (LoginFinish body) request o st) in Hv.
        now rewrite (finish_adds_nothing cfg _ _ _ _ _ Hk) in Hv.
    + destruct (login_finish_db cfg body request o st) as [-> | (n & cid & ->)];
        exact Hnames.
Qed.

Lemma serve_all_nothing_empty calls st :
  Forall (fun c => oracle_ok (snd c)) calls ->
  nothing_empty st -> nothing_empty (serve_all cfg calls st).
Proof.
  revert st. induction calls as [|[[call request] o] rest IH]; intros st Hok Hst.
  - exact Hst.
  - inversion Hok as [|? ? Ho Hrest]; subst. simpl.
    apply IH; [exact Hrest|]. now apply handle_nothing_empty.
Qed.

(** In a state the server reaches, a session-bound username is never
    empty: the outcome of [login_finish] does not depend on the username
    of the body as soon as the key is present. *)
Lemma login_finish_prefers_session_username_when_present
    calls request o credential hint1 hint2 bound :
  Forall (fun c => oracle_ok (snd c)) calls ->
  let st := serve_all cfg calls initial_state in
  challenges st !! username_key (session_of request o) = Some bound ->
  login_finish cfg {| lf_username := hint1; lf_credential := credential |} request o st
  = login_finish cfg {| lf_username := hint2; lf_credential := credential |} request o st.
Proof.
  intros Hok st Hbound.
  destruct (serve_all_nothing_empty calls initial_state Hok nothing_empty_initial)
    as [Hdict _].
  apply login_finish_by_effective_username; [reflexivity|].
  fold st in Hdict. rewrite Hbound. unfold effective_username.
  now rewrite (Hdict _ _ Hbound).
Qed.

End NothingEmpty.

(** ** The sign counter *)





(** ** Which credential is verified *)

Section CredentialChoice.
Context {L : PyLib} {G : Gateway} (cfg : Config).

(** The row [login_finish] hands to the gateway is the first row of the
    user, whatever credential id the signed response carries. *)
Lemma login_finish_verifies_first_row body request o st ev :
  trace (snd (login_finish cfg body request o st)) = ev :: trace st ->
  exists username user cred_row public_key,
    effective_username (challenges st !! username_key (session_of request o)) body
    = Some username
    /\ select_user_by_username (db st) username = Some user
    /\ select_credential_by_user (db st) (user_id_col user) = Some cred_row
    /\ urlsafe_b64decode (public_key_col cred_row +:+ "==") = inl public_key
    /\ ev = VerifyAuthentication (lf_credential body)
              (default [] (challenges st !! session_of request o))
              public_key (sign_count_col cred_row).
Proof.
  unfold login_finish, session_of, pop.
  destruct (get_or_create_session request o) as [sid ck]. simpl.
  rewrite lookup_delete_ne by apply session_ne_username_key.
  repeat case_match; simpl; intros Htr;
    try (exfalso; apply (f_equal (@List.length Event)) in Htr; simpl in Htr; lia);
    injection Htr as <-; eauto 10.
Qed.

End CredentialChoice.

(** C3 (what the code does). The row is selected by user id alone.
    - Alice registers the credential [c1] (key [K1]) and starts a login.
      The signed response of the login finish carries [rawId = c9], which
      is no credential of hers: the handler still hands the gateway the
      key and the count of [c1].
    - In a database where one user owns [c1] (key [K1], count 7) and [c2]
      (key [K2], count 3), a response that carries [rawId = c2] is
      verified against the key and the count of [c1], the first row of the
      user.
    Both hold whatever the gateway answers. *)
Theorem login_finish_ignores_response_credential_id {G : Gateway} :
  let registered :=
    snd (login_start (L:=Demo.pylib) Demo.cfg {| ls_username := "alice" |}
           (Demo.with_session "s") (Demo.oracle "f" "u2" "CH2")
           (snd (register_finish (L:=Demo.pylib) (G:=Demo.gateway) Demo.cfg
                   {| rf_username := "alice";
                      rf_credential := Demo.response "c1" "CH1" "K1" 0 |}
                   (Demo.with_session "s") (Demo.oracle "f" "u1" "CH1")
                   (snd (register_start (L:=Demo.pylib) Demo.cfg
                           {| rs_username := "alice" |} (Demo.with_session "s")
                           (Demo.oracle "f" "u1" "CH1") initial_state))))) in
  let foreign := Demo.response "c9" "CH2" "K9" 1 in
  let two_rows :=
    {| challenges :=
         <["s" := list_byte_of_string "CH1"]>
           (<["s_username" := list_byte_of_string "alice"]> ∅);
       db := {| users := [ {| user_id_col := "u1"; username_col := "alice";
                              user_created_at := 0 |} ];
                credentials := [ {| credential_id_col := "c1"; cred_user_id := "u1";
                                    public_key_col := "K1"; sign_count_col := 7;
                                    cred_created_at := 0 |};
                                 {| credential_id_col := "c2"; cred_user_id := "u1";
                                    public_key_col := "K2"; sign_count_col := 3;
                                    cred_created_at := 0 |} ] |};
       trace := [] |} in
  let second := Demo.response "c2" "CH1" "K2" 4 in
  let finish_with credential st :=
    login_finish (L:=Demo.pylib) (G:=G) Demo.cfg
      {| lf_username := "alice"; lf_credential := credential |}
      (Demo.with_session "s") (Demo.oracle "f" "u3" "CH3") st in
  (List.map credential_id_col (credentials (db registered)) = ["c1"]
   /\ raw_id_of foreign = JStr "c9"
   /\ trace (snd (finish_with foreign registered))
      = VerifyAuthentication foreign (list_byte_of_string "CH2")
          (list_byte_of_string "K1") 0 :: trace registered)
  /\ (raw_id_of second = JStr "c2"
      /\ pad (raw_id_of second) = Some "c2=="
      /\ trace (snd (finish_with second two_rows))
         = [ VerifyAuthentication second (list_byte_of_string "CH1")
               (list_byte_of_string "K1") 7 ]).
Proof.
  intros registered foreign two_rows second finish_with.
  repeat split; try reflexivity; subst finish_with; vm_compute;
    match goal with
    | |- context [match ?answer with inl _ => _ | inr _ => _ end] => destruct answer
    end; reflexivity.
Qed.

(** ** Register finish without a pending username *)

(** The guard of [register_finish] in full: the call answers "No pending
    registration" exactly when the challenge or the pending user id is
    missing or empty. The pending username plays no part in it. *)
Lemma register_finish_guard {L : PyLib} {G : Gateway} (cfg : Config)
    (body : RegisterFinishRequest) (request : Request) (o : Oracle) (st : State) :
  let sid := session_of request o in
  fst (register_finish cfg body request o st)
  = HTTPException 400 "No pending registration. Start over."
  <-> bytes_truthy (challenges st !! sid) = false
      \/ bytes_truthy (challenges st !! user_id_key sid) = false.
Proof.
  unfold register_finish, session_of, pop.
  destruct (get_or_create_session request o) as [sid ck]. simpl.
  rewrite lookup_delete_ne by apply session_ne_user_id_key.
  destruct (bytes_truthy (challenges st !! sid));
    destruct (bytes_truthy (challenges st !! user_id_key sid)); simpl;
    try (split; [auto | reflexivity]).
  split; [|intros [H | H]; discriminate H].
  repeat case_match; simpl; discriminate.
Qed.

(** C7 (what the code does). A session [s] starts a registration; a login
    finish sent under the session id [s_username] pops the pending
    username of [s] as if it were a challenge. The dictionary then holds
    the challenge and the user id of [s] and no username. A register
    finish on [s] passes the guard, which tests the challenge and the user
    id only, reaches the gateway, and ends in the [IntegrityError] of the
    insert of a [NULL] username; it does not answer 400 "No pending
    registration". *)
Theorem register_finish_guard_skips_username :
  let st1 :=
    snd (register_start (L:=Demo.pylib) Demo.cfg {| rs_username := "alice" |}
           (Demo.with_session "s") (Demo.oracle "f" "u1" "CH1") initial_state) in
  let st2 :=
    snd (login_finish (L:=Demo.pylib) (G:=Demo.gateway) Demo.cfg
           {| lf_username := "alice"; lf_credential := ∅ |}
           (Demo.with_session "s_username") (Demo.oracle "f" "u2" "CH2") st1) in
  let credential := Demo.response "c1" "CH1" "K1" 0 in
  let result :=
    register_finish (L:=Demo.pylib) (G:=Demo.gateway) Demo.cfg
      {| rf_username := "alice"; rf_credential := credential |}
      (Demo.with_session "s") (Demo.oracle "f" "u3" "CH3") st2 in
  challenges st2 !! "s" = Some (list_byte_of_string "CH1")
  /\ challenges st2 !! user_id_key "s" = Some (list_byte_of_string "u1")
  /\ challenges st2 !! username_key "s" = None
  /\ fst result
     = Unhandled (IntegrityError "NOT NULL constraint failed: users.username")
  /\ trace (snd result)
     = VerifyRegistration credential (list_byte_of_string "CH1") :: trace st2
  /\ db (snd result) = init_db.
Proof.
  intros st1 st2 credential result.
  repeat split; vm_compute; reflexivity.
Qed.

(** ** The relying-party id *)

Lemma before_colon_no_colon (s : string) (i : nat) :
  String.get i (before_colon s) <> Some ":"%char.
Proof.
  revert i. induction s as [|c s IH]; intros i; simpl; [discriminate|].
  destruct (Ascii.eqb c ":"%char) eqn:E; simpl; [discriminate|].
  destruct i as [|i]; [|apply IH].
  intros [= ->]. now rewrite Ascii.eqb_refl in E.
Qed.

Lemma before_colon_split (s : string) :
  s = before_colon s \/ exists rest, s = before_colon s +:+ ":" +:+ rest.
Proof.
  induction s as [|c s IH]; simpl; [now left|].
  destruct (Ascii.eqb c ":"%char) eqn:E.
  - apply Ascii.eqb_eq in E as ->. right. now exists s.
  - destruct IH as [IH | [rest IH]].
    + left. now rewrite <- IH.
    + right. exists rest.
      change (String c (before_colon s) +:+ ":" +:+ rest)
        with (String c (before_colon s +:+ ":" +:+ rest)).
      now rewrite <- IH.
Qed.

(** X1. The relying-party id never contains a colon. With [SPACE_HOST]
    set, the origin is ["https://"] followed by the host, and the RP id is
    the host itself or the part of it before its first colon (the port is
    cut off); with [SPACE_HOST] unset the configuration is the localhost
    one. *)
Theorem rp_id_has_no_port (SPACE_HOST : string) :
  let c := config_of SPACE_HOST in
  (forall i, String.get i (RP_ID c) <> Some ":"%char)
  /\ (str_truthy (Some SPACE_HOST) = true ->
      ORIGIN c = "https://" +:+ SPACE_HOST
      /\ (SPACE_HOST = RP_ID c
          \/ exists rest, SPACE_HOST = RP_ID c +:+ ":" +:+ rest))
  /\ (SPACE_HOST = "" ->
      c = {| RP_ID := "localhost"; ORIGIN := "http://localhost:7860" |}).
Proof.
  intros c. subst c. unfold config_of.
  destruct SPACE_HOST as [|h host]; simpl.
  - split; [|split; [discriminate | reflexivity]].
    intros i. do 9 (destruct i as [|i]; [discriminate|]). discriminate.
  - split; [|split; [|discriminate]].
    + intros i. apply (before_colon_no_colon (String h host)).
    + intros _. split; [reflexivity|].
      apply (before_colon_split (String h host)).
Qed.

(** ** Sessions *)

Lemma next_request_app (request : Request) (a b : list (string * string)) :
  next_request request (a ++ b) = next_request (next_request request a) b.
Proof. unfold next_request. simpl. now rewrite fold_left_app. Qed.



(** ** Who am I *)

Section Me.
Context {L : PyLib} {G : Gateway} (cfg : Config).

(** A successful [login_finish] sets [authed_user] last, to the username
    it returns. *)
Lemma login_finish_ok_cookies body request o st u cookies :
  fst (login_finish cfg body request o st) = Ok (StatusOk u) cookies ->
  exists name, u = Some name
               /\ cookies = (snd (get_or_create_session request o)
                             ++ [("authed_user", name)])%list.
Proof.
  unfold login_finish, pop.
  destruct (get_or_create_session request o) as [sid ck]. simpl.
  repeat case_match; simpl; try discriminate. intros [= <- <-]. eauto.
Qed.

End Me.

(** X13. Login, then "who am I", then logout. After a successful login
    finish, [/api/me] called with the cookies of the response answers the
    username the login returned (401 if that username is empty). After
    [/api/logout] it answers 401, whether the client keeps the emptied
    cookie or drops it. *)
Theorem me_follows_login_and_logout
    {L : PyLib} {G : Gateway} (cfg : Config)
    (body : LoginFinishRequest) (request : Request) (o : Oracle) (st : State)
    (username : string) (cookies : list (string * string)) :
  fst (login_finish cfg body request o st) = Ok (StatusOk (Some username)) cookies ->
  let logged_in := next_request request cookies in
  me logged_in
  = (if str_truthy (Some username) then inl username
     else inr (401, "Not authenticated"))
  /\ me (next_request logged_in logout) = inr (401, "Not authenticated")
  /\ me (next_request_dropping logged_in logout) = inr (401, "Not authenticated").
Proof.
  intros Hok logged_in.
  destruct (login_finish_ok_cookies cfg _ _ _ _ _ _ Hok) as (name & [= <-] & ->).
  subst logged_in. rewrite next_request_app.
  unfold me, next_request, next_request_dropping, logout. simpl.
  rewrite !lookup_insert_eq, lookup_delete_eq.
  destruct username; auto.
Qed.

Lemma me_follows_login_and_logout_witness :
  let st :=
    {| challenges :=
         <["s" := list_byte_of_string "CH1"]>
           (<["s_username" := list_byte_of_string "alice"]> ∅);
       db := {| users := [ {| user_id_col := "u1"; username_col := "alice";
                              user_created_at := 0 |} ];
                credentials := [ {| credential_id_col := "c1"; cred_user_id := "u1";
                                    public_key_col := "K1"; sign_count_col := 5;
                                    cred_created_at := 0 |} ] |};
       trace := [] |} in
  let logged_in :=
    next_request (Demo.with_session "s") [("authed_user", "alice")] in
  me logged_in = inl "alice"
  /\ me (next_request logged_in logout) = inr (401, "Not authenticated").
Proof.
  intros st logged_in.
  pose proof (me_follows_login_and_logout (L:=Demo.pylib) (G:=Demo.gateway)
                Demo.cfg
                {| lf_username := "alice";
                   lf_credential := Demo.response "c1" "CH1" "K1" 6 |}
                (Demo.with_session "s") (Demo.oracle "f" "u2" "CH2") st
                "alice" [("authed_user", "alice")] eq_refl) as H.
  exact (conj (proj1 H) (proj1 (proj2 H))).
Defined.

(** ** What a request does to the database *)

Lemma existsb_eqb_false {A : Type} (key : A -> string) (k : string) (l : list A) :
  existsb (fun x => String.eqb (key x) k) l = false ->
  ~ In k (List.map key l).
Proof.
  induction l as [|x l IH]; simpl; [tauto|].
  intros H. apply orb_false_elim in H as [Hx Hl].
  intros [E | Hin]; [|now apply IH].
  rewrite E, String.eqb_refl in Hx. discriminate Hx.
Qed.

Lemma update_sign_count_identity (d : Database) (count : Z) (cid : string) :
  users (update_sign_count d count cid) = users d
  /\ List.map credential_identity (credentials (update_sign_count d count cid))
     = List.map credential_identity (credentials d).
Proof.
  split; [reflexivity|]. unfold update_sign_count. simpl.
  rewrite List.map_map. apply List.map_ext. intros c.
  now destruct (String.eqb (credential_id_col c) cid).
Qed.

Lemma update_sign_count_ids (d : Database) (count : Z) (cid : string) :
  List.map credential_id_col (credentials (update_sign_count d count cid))
  = List.map credential_id_col (credentials d).
Proof.
  unfold update_sign_count. simpl.
  rewrite List.map_map. apply List.map_ext. intros c.
  now destruct (String.eqb (credential_id_col c) cid).
Qed.

Lemma update_sign_count_owners (d : Database) (count : Z) (cid : string) :
  List.map cred_user_id (credentials (update_sign_count d count cid))
  = List.map cred_user_id (credentials d).
Proof.
  unfold update_sign_count. simpl.
  rewrite List.map_map. apply List.map_ext. intros c.
  now destruct (String.eqb (credential_id_col c) cid).
Qed.

Section DbStep.
Context {L : PyLib} {G : Gateway} (cfg : Config).

Lemma register_finish_db_step body request o st :
  db (snd (register_finish cfg body request o st)) = db st
  \/ registered_pair (db st) (db (snd (register_finish cfg body request o st))).
Proof.
  unfold register_finish, pop.
  destruct (get_or_create_session request o) as [sid ck]. simpl.
  repeat case_match; simpl; auto.
  right.
  match goal with
  | H1 : insert_user _ _ _ _ = inl _, H2 : insert_credential _ _ _ _ _ _ = inl _ |- _ =>
      unfold insert_user in H1; unfold insert_credential in H2;
      repeat case_match; try discriminate;
      injection H1 as <-; injection H2 as <-
  end.
  eexists _, _. simpl.
  repeat match goal with
         | H : existsb _ _ = false |- _ => apply existsb_eqb_false in H
         end.
  repeat split; eauto.
Qed.

Lemma handle_db_step call request o st :
  db_step (db st) (db (snd (handle cfg call request o st))).
Proof.
  unfold db_step. destruct call as [body|body|body|body]; simpl.
  - left. apply register_start_db.
  - destruct (register_finish_db_step body request o st); auto.
  - left. apply login_start_db.
  - destruct (login_finish_db cfg body request o st); auto.
Qed.

(** An invariant of the database that [db_step] keeps holds in every
    reachable state. *)
Lemma reachable_db_invariant (P : Database -> Prop) :
  P init_db ->
  (forall d d', db_step d d' -> P d -> P d') ->
  forall st, reachable cfg st -> P (db st).
Proof.
  intros Hinit Hstep st Hreach.
  induction Hreach as [|st call request o _ IH]; [exact Hinit|].
  exact (Hstep _ _ (handle_db_step call request o st) IH).
Qed.

End DbStep.

(** ** Rows are unique, and never change hands *)

Lemma NoDup_snoc {A : Type} (l : list A) (x : A) :
  List.NoDup l -> ~ In x l -> List.NoDup (l ++ [x]).
Proof.
  induction l as [|y l IH]; simpl; intros Hnd Hx.
  - constructor; [tauto | constructor].
  - inversion Hnd as [|? ? Hy Hl]; subst. constructor.
    + rewrite in_app_iff. simpl. intros [H | [H | []]]; [tauto|].
      apply Hx. now left.
    + apply IH; [exact Hl | tauto].
Qed.

Lemma count_unique (l : list string) (k : string) :
  List.NoDup l -> In k l ->
  length (List.filter (fun i => String.eqb i k) l) = 1%nat.
Proof.
  induction l as [|x l IH]; simpl; [tauto|].
  intros Hnd Hin. inversion Hnd as [|? ? Hx Hl]; subst.
  destruct (String.eqb_spec x k) as [-> | Hne].
  - simpl. f_equal.
    assert (Hnone : forall l', ~ In k l' ->
                               List.filter (fun i => String.eqb i k) l' = []).
    { induction l' as [|y l' IH']; simpl; [reflexivity|]. intros Hy.
      destruct (String.eqb_spec y k) as [-> | _]; [tauto|].
      apply IH'. tauto. }
    now rewrite Hnone.
  - destruct Hin as [E | Hin]; [congruence|]. now apply IH.
Qed.

Lemma filter_map_length {A B : Type} (f : A -> B) (p : B -> bool) (l : list A) :
  length (List.filter (fun x => p (f x)) l) = length (List.filter p (List.map f l)).
Proof.
  induction l as [|x l IH]; simpl; [reflexivity|].
  destruct (p (f x)); simpl; now rewrite IH.
Qed.

Section RowInvariants.
Context {L : PyLib}.

Lemma keys_unique_step (d d' : Database) :
  db_step d d' -> keys_unique d -> keys_unique d'.
Proof.
  intros [-> | [(u & c & Eu & Ec & _ & Hid & Hname & Hcid & _) | (n & cid & ->)]]
         (Huid & Hun & Hc); [now repeat split | |].
  - unfold keys_unique. rewrite Eu, Ec, !List.map_app. simpl.
    repeat split; now apply NoDup_snoc.
  - unfold keys_unique. rewrite update_sign_count_ids. now repeat split.
Qed.

Lemma one_credential_each_step (d d' : Database) :
  db_step d d' -> one_credential_each d -> one_credential_each d'.
Proof.
  unfold one_credential_each.
  intros [-> | [(u & c & Eu & Ec & Eown & _) | (n & cid & ->)]] H; [exact H | |].
  - rewrite Eu, Ec, !List.map_app, H. simpl. now rewrite Eown.
  - now rewrite update_sign_count_owners.
Qed.

Lemma stored_as_b64_step (d d' : Database) :
  db_step d d' -> stored_as_b64 d -> stored_as_b64 d'.
Proof.
  unfold stored_as_b64.
  intros [-> | [(u & c & Eu & Ec & _ & _ & _ & _ & Hcid & Hpk) | (n & cid & ->)]] H;
    [exact H | |].
  - intros c' Hin. rewrite Ec in Hin.
    apply in_app_or in Hin as [Hin | [<- | []]]; [now apply H | now split].
  - intros c' Hin. unfold update_sign_count in Hin. simpl in Hin.
    apply in_map_iff in Hin as (c0 & <- & Hin0).
    destruct (H _ Hin0) as [Hcid Hpk].
    now destruct (String.eqb (credential_id_col c0) cid).
Qed.

(** Rows are only appended, and an existing credential row keeps its
    id, its owner, its key and its creation time. *)
Lemma append_only_step (d d' : Database) :
  db_step d d' ->
  exists new_users new_credentials,
    users d' = (users d ++ new_users)%list
    /\ List.map credential_identity (credentials d')
       = (List.map credential_identity (credentials d) ++ new_credentials)%list.
Proof.
  intros [-> | [(u & c & Eu & Ec & _) | (n & cid & ->)]].
  - exists [], []. now rewrite !app_nil_r.
  - exists [u], [credential_identity c]. now rewrite Eu, Ec, List.map_app.
  - exists [], []. destruct (update_sign_count_identity d n cid) as [-> ->].
    now rewrite !app_nil_r.
Qed.

End RowInvariants.

(** X6. Rows are never deleted or rewritten. Whatever requests are
    served, the users table only grows at its end, and the credentials
    table only grows at its end while each existing row keeps its id, its
    owner, its public key and its creation time: the sign count is the
    only stored value that ever changes. *)
Theorem rows_are_append_only
    {L : PyLib} {G : Gateway} (cfg : Config)
    (calls : list (Call * Request * Oracle)) (st : State) :
  let st' := serve_all cfg calls st in
  exists new_users new_credentials,
    users (db st') = (users (db st) ++ new_users)%list
    /\ List.map credential_identity (credentials (db st'))
       = (List.map credential_identity (credentials (db st)) ++ new_credentials)%list.
Proof.
  revert st. induction calls as [|[[call request] o] rest IH]; intros st; simpl.
  - exists [], []. now rewrite !app_nil_r.
  - destruct (IH (snd (handle cfg call request o st))) as (nu & nc & Hu & Hc).
    destruct (append_only_step _ _ (handle_db_step cfg call request o st))
      as (nu0 & nc0 & Hu0 & Hc0).
    exists (nu0 ++ nu)%list, (nc0 ++ nc)%list.
    simpl in Hu, Hc. rewrite Hu, Hc, Hu0, Hc0, !app_assoc. auto.
Qed.

(** X7. In every state the server can reach, no two user rows share an
    id or a username and no two credential rows share a credential id:
    the checks of the two inserts keep the tables' keys unique. *)
Theorem reachable_keys_are_unique
    {L : PyLib} {G : Gateway} (cfg : Config) (st : State) :
  reachable cfg st -> keys_unique (db st).
Proof.
  apply (reachable_db_invariant cfg keys_unique).
  - repeat split; constructor.
  - apply keys_unique_step.
Qed.

(** X8. In every state the server can reach, credentials and users line
    up one to one: the owner ids of the credentials table are the ids of
    the users table, in the same order, so each user owns exactly one
    credential. Registration is the only way to add a credential and it
    always adds a new user with it. *)
Theorem reachable_users_own_one_credential
    {L : PyLib} {G : Gateway} (cfg : Config) (st : State) (u : UserRow) :
  reachable cfg st ->
  In u (users (db st)) ->
  one_credential_each (db st)
  /\ length (select_credential_ids (db st) (user_id_col u)) = 1%nat.
Proof.
  intros Hreach Hin.
  assert (Hone : one_credential_each (db st)).
  { revert Hreach. apply (reachable_db_invariant cfg one_credential_each);
      [reflexivity | apply one_credential_each_step]. }
  assert (Huniq : keys_unique (db st)).
  { revert Hreach. apply (reachable_db_invariant cfg keys_unique);
      [repeat split; constructor | apply keys_unique_step]. }
  split; [exact Hone|].
  unfold select_credential_ids. rewrite length_map.
  rewrite (filter_map_length cred_user_id (fun i => String.eqb i (user_id_col u))).
  rewrite Hone. apply count_unique; [apply Huniq | now apply in_map].
Qed.

Lemma reachable_keys_are_unique_witness :
  let st :=
    snd (handle (L:=Demo.pylib) (G:=Demo.gateway) Demo.cfg
           (RegisterFinishCall {| rf_username := "alice";
                                  rf_credential := Demo.response "c1" "CH1" "K1" 0 |})
           (Demo.with_session "s") (Demo.oracle "f" "u1" "CH1")
           (snd (handle (L:=Demo.pylib) (G:=Demo.gateway) Demo.cfg
                   (RegisterStartCall {| rs_username := "alice" |})
                   (Demo.with_session "s") (Demo.oracle "f" "u1" "CH1")
                   initial_state))) in
  List.map username_col (users (db st)) = ["alice"] /\ keys_unique (db st).
Proof.
  intros st. split; [reflexivity|].
  exact (reachable_keys_are_unique (L:=Demo.pylib) (G:=Demo.gateway) Demo.cfg st
           (reachable_step Demo.cfg _ _ _ _
              (reachable_step Demo.cfg _ _ _ _ (reachable_initial Demo.cfg)))).
Defined.

Lemma reachable_users_own_one_credential_witness :
  let st :=
    snd (handle (L:=Demo.pylib) (G:=Demo.gateway) Demo.cfg
           (RegisterFinishCall {| rf_username := "alice";
                                  rf_credential := Demo.response "c1" "CH1" "K1" 0 |})
           (Demo.with_session "s") (Demo.oracle "f" "u1" "CH1")
           (snd (handle (L:=Demo.pylib) (G:=Demo.gateway) Demo.cfg
                   (RegisterStartCall {| rs_username := "alice" |})
                   (Demo.with_session "s") (Demo.oracle "f" "u1" "CH1")
                   initial_state))) in
  length (select_credential_ids (db st) "u1") = 1%nat.
Proof.
  intros st.
  exact (proj2 (reachable_users_own_one_credential
                  (L:=Demo.pylib) (G:=Demo.gateway) Demo.cfg st
                  {| user_id_col := "u1"; username_col := "alice";
                     user_created_at := 1700000000 |}
                  (reachable_step Demo.cfg _ _ _ _
                     (reachable_step Demo.cfg _ _ _ _ (reachable_initial Demo.cfg)))
                  (or_introl eq_refl))).
Defined.

(** ** Edge answers of login finish *)

Section LoginEdges.
Context {L : PyLib} {G : Gateway} (cfg : Config).


End LoginEdges.



(** X10. A login finish whose credential id is not a string ([rawId], or
    [id] when [rawId] is missing or falsy) is not answered with a 4xx: for
    a pending login of a known user the padding expression raises
    [TypeError], which nothing catches. The gateway is not called and the
    database is unchanged, but the challenge has been consumed. *)
Theorem login_finish_non_string_raw_id
    {L : PyLib} {G : Gateway} (cfg : Config)
    (st : State) (body : LoginFinishRequest) (request : Request) (o : Oracle)
    (username : string) (user : UserRow) :
  let sid := session_of request o in
  bytes_truthy (challenges st !! sid) = true ->
  effective_username (challenges st !! username_key sid) body = Some username ->
  select_user_by_username (db st) username = Some user ->
  (forall s, raw_id_of (lf_credential body) <> JStr s) ->
  let result := login_finish cfg body request o st in
  fst result = Unhandled TypeError
  /\ trace (snd result) = trace st
  /\ db (snd result) = db st
  /\ challenges (snd result) !! sid = None.
Proof.
  intros sid Hch Heff Huser Hraw result.
  assert (Hpad : pad (raw_id_of (lf_credential body)) = None).
  { destruct (raw_id_of (lf_credential body)) eqn:E; try reflexivity.
    now destruct (Hraw s). }
  assert (Hpop : challenges (snd result) !! sid = None)
    by apply (finish_pops cfg (LoginFinish body)).
  revert Hpop. subst result sid. revert Hch Heff.
  unfold login_finish, session_of, pop.
  destruct (get_or_create_session request o) as [sid ck]. simpl.
  rewrite lookup_delete_ne by apply session_ne_username_key.
  intros -> ->. simpl. rewrite Huser, Hpad. simpl. auto.
Qed.

Lemma login_finish_non_string_raw_id_witness :
  let st :=
    {| challenges :=
         <["s" := list_byte_of_string "CH1"]>
           (<["s_username" := list_byte_of_string "alice"]> ∅);
       db := {| users := [ {| user_id_col := "u1"; username_col := "alice";
                              user_created_at := 0 |} ];
                credentials := [ {| credential_id_col := "c1"; cred_user_id := "u1";
                                    public_key_col := "K1"; sign_count_col := 5;
                                    cred_created_at := 0 |} ] |};
       trace := [] |} in
  fst (login_finish (L:=Demo.pylib) (G:=Demo.gateway) Demo.cfg
         {| lf_username := "alice"; lf_credential := <["rawId" := JNum 5]> ∅ |}
         (Demo.with_session "s") (Demo.oracle "f" "u2" "CH2") st)
  = Unhandled TypeError.
Proof.
  intros st.
  refine (proj1 (login_finish_non_string_raw_id (L:=Demo.pylib) (G:=Demo.gateway)
                   Demo.cfg st
                   {| lf_username := "alice";
                      lf_credential := <["rawId" := JNum 5]> ∅ |}
                   (Demo.with_session "s") (Demo.oracle "f" "u2" "CH2")
                   "alice" _ eq_refl eq_refl eq_refl _)).
  intros s. vm_compute. discriminate.
Defined.

(** ** Sessions do not interfere *)

Lemma no_underscore_app (a b : string) :
  no_underscore (a +:+ String "_"%char b) = false.
Proof.
  induction a as [|c a IH]; [reflexivity|].
  change (String c a +:+ String "_"%char b) with (String c (a +:+ String "_"%char b)).
  simpl. rewrite IH. apply andb_false_r.
Qed.

Lemma split_at_underscore (a b r1 r2 : string) :
  no_underscore a = true -> no_underscore b = true ->
  a +:+ String "_"%char r1 = b +:+ String "_"%char r2 -> a = b.
Proof.
  revert b. induction a as [|c a IH]; intros [|d b] Ha Hb E.
  - reflexivity.
  - injection E as <- _. discriminate Hb.
  - injection E as -> _. discriminate Ha.
  - change (String c (a +:+ String "_"%char r1) = String d (b +:+ String "_"%char r2)) in E.
    injection E as -> E. simpl in Ha, Hb.
    apply andb_prop in Ha as [_ Ha]. apply andb_prop in Hb as [_ Hb].
    f_equal. now apply IH.
Qed.

(** The three keys of a session without ["_"] are keys of no other such
    session. *)
Lemma keys_of_other_session (s t : string) (k : string) :
  no_underscore s = true -> no_underscore t = true -> t <> s ->
  k = t \/ k = user_id_key t \/ k = username_key t ->
  k <> s /\ k <> user_id_key s /\ k <> username_key s.
Proof.
  unfold user_id_key, username_key. intros Hs Ht Hne Hk.
  assert (Hplain : forall x r, no_underscore x = true -> x <> s +:+ String "_"%char r
                               /\ x <> t +:+ String "_"%char r).
  { intros x r Hx. split; intros ->; rewrite no_underscore_app in Hx; discriminate Hx. }
  assert (Hcross : forall r1 r2, t +:+ String "_"%char r1 <> s +:+ String "_"%char r2).
  { intros r1 r2 E. apply Hne. eapply split_at_underscore; eauto. }
  destruct Hk as [-> | [-> | ->]]; repeat split;
    try apply Hcross; try exact Hne;
    first [ apply (Hplain t _ Ht)
          | apply not_eq_sym, (Hplain s _ Hs) ].
Qed.

Section Frame.
Context {L : PyLib} {G : Gateway} (cfg : Config).

(** A request changes no dictionary entry but the three of its session. *)
Lemma handle_challenges_frame call request o st (k : string) :
  k <> session_of request o ->
  k <> user_id_key (session_of request o) ->
  k <> username_key (session_of request o) ->
  challenges (snd (handle cfg call request o st)) !! k = challenges st !! k.
Proof.
  intros H1 H2 H3. destruct call as [body|body|body|body]; simpl.
  - revert H1 H2 H3. unfold register_start, session_of.
    destruct (get_or_create_session request o) as [sid ck]. simpl. intros H1 H2 H3.
    repeat case_match; simpl; try reflexivity;
      now rewrite !lookup_insert_ne by (apply not_eq_sym; assumption).
  - rewrite register_finish_challenges. now rewrite !lookup_delete_ne by (apply not_eq_sym; assumption).
  - revert H1 H2 H3. unfold login_start, session_of.
    destruct (get_or_create_session request o) as [sid ck]. simpl. intros H1 H2 H3.
    repeat case_match; simpl; try reflexivity;
      now rewrite !lookup_insert_ne by (apply not_eq_sym; assumption).
  - rewrite login_finish_challenges. now rewrite !lookup_delete_ne by (apply not_eq_sym; assumption).
Qed.

(** The challenge and the username of the request's own session are set
    together and removed together. *)
Lemma handle_own_username call request o st :
  is_Some (challenges (snd (handle cfg call request o st)) !! session_of request o) ->
  is_Some (challenges st !! session_of request o)
  /\ challenges (snd (handle cfg call request o st)) !! session_of request o
     = challenges st !! session_of request o
  /\ challenges (snd (handle cfg call request o st)) !! username_key (session_of request o)
     = challenges st !! username_key (session_of request o)
  \/ is_Some (challenges (snd (handle cfg call request o st))
                !! username_key (session_of request o)).
Proof.
  destruct call as [body|body|body|body]; simpl.
  - unfold register_start, session_of.
    destruct (get_or_create_session request o) as [sid ck]. simpl.
    repeat case_match; simpl;
      first [ intros Hsome; left; split; [exact Hsome | split; reflexivity]
            | intros _; right; rewrite lookup_insert_eq; eauto ].
  - change (register_finish cfg body request o st)
      with (finish cfg (RegisterFinish body) request o st).
    rewrite finish_pops. intros [x Hx]. discriminate Hx.
  - unfold login_start, session_of.
    destruct (get_or_create_session request o) as [sid ck]. simpl.
    repeat case_match; simpl;
      first [ intros Hsome; left; split; [exact Hsome | split; reflexivity]
            | intros _; right; rewrite lookup_insert_eq; eauto ].
  - change (login_finish cfg body request o st)
      with (finish cfg (LoginFinish body) request o st).
    rewrite finish_pops. intros [x Hx]. discriminate Hx.
Qed.

End Frame.

(** X4. Sessions whose ids have no ["_"] (every id the server mints is
    hexadecimal) do not interfere: a request served under one of them
    leaves the pending challenge, user id and username of any other
    untouched, whatever the endpoint and its outcome. *)
Theorem minted_sessions_are_isolated
    {L : PyLib} {G : Gateway} (cfg : Config)
    (call : Call) (request : Request) (o : Oracle) (st : State) (other : string) :
  no_underscore (session_of request o) = true ->
  no_underscore other = true ->
  other <> session_of request o ->
  let st' := snd (handle cfg call request o st) in
  challenges st' !! other = challenges st !! other
  /\ challenges st' !! user_id_key other = challenges st !! user_id_key other
  /\ challenges st' !! username_key other = challenges st !! username_key other.
Proof.
  intros Hs Ht Hne st'. subst st'.
  repeat split; apply handle_challenges_frame;
    eapply (keys_of_other_session (session_of request o) other); eauto.
Qed.

Lemma minted_sessions_are_isolated_witness :
  let st :=
    snd (register_start (L:=Demo.pylib) Demo.cfg {| rs_username := "alice" |}
           (Demo.with_session "a1") (Demo.oracle "f" "u1" "CH1") initial_state) in
  let st' :=
    snd (handle (L:=Demo.pylib) (G:=Demo.gateway) Demo.cfg
           (LoginFinishCall {| lf_username := "alice"; lf_credential := ∅ |})
           (Demo.with_session "b2") (Demo.oracle "f" "u2" "CH2") st) in
  challenges st' !! "a1" = Some (list_byte_of_string "CH1").
Proof.
  intros st st'.
  exact (eq_trans
           (proj1 (minted_sessions_are_isolated (L:=Demo.pylib) (G:=Demo.gateway)
                     Demo.cfg
                     (LoginFinishCall {| lf_username := "alice"; lf_credential := ∅ |})
                     (Demo.with_session "b2") (Demo.oracle "f" "u2" "CH2") st "a1"
                     eq_refl eq_refl ltac:(discriminate)))
           eq_refl).
Defined.

Lemma challenge_has_username_initial : challenge_has_username initial_state.
Proof. intros t _ [x Hx]. simpl in Hx. now rewrite lookup_empty in Hx. Qed.

Section NullUsername.
Context {L : PyLib} {G : Gateway} (cfg : Config).

Lemma serve_all_challenge_has_username calls st :
  minted_sessions calls ->
  challenge_has_username st ->
  challenge_has_username (serve_all cfg calls st).
Proof.
  revert st. induction calls as [|[[call request] o] rest IH]; intros st Hminted Hst.
  - exact Hst.
  - inversion Hminted as [|? ? Hs Hrest]; subst. simpl in Hs. simpl.
    apply IH; [exact Hrest|].
    intros t Ht Hsome.
    destruct (decide (t = session_of request o)) as [-> | Hne].
    + destruct (handle_own_username cfg call request o st Hsome)
        as [(Hold & _ & ->) | Hnew]; [|exact Hnew].
      now apply Hst.
    + destruct (keys_of_other_session (session_of request o) t t
                  Hs Ht Hne (or_introl eq_refl)) as (A1 & A2 & A3).
      destruct (keys_of_other_session (session_of request o) t (username_key t)
                  Hs Ht Hne (or_intror (or_intror eq_refl))) as (B1 & B2 & B3).
      rewrite (handle_challenges_frame cfg call request o st _ A1 A2 A3) in Hsome.
      rewrite (handle_challenges_frame cfg call request o st _ B1 B2 B3).
      now apply Hst.
Qed.

(** The insert of a [NULL] username is reached only with a challenge and
    no username in the dictionary. *)
Lemma register_finish_null_username body request o st :
  fst (register_finish cfg body request o st)
  = Unhandled (IntegrityError "NOT NULL constraint failed: users.username") ->
  is_Some (challenges st !! session_of request o)
  /\ challenges st !! username_key (session_of request o) = None.
Proof.
  unfold register_finish, session_of, pop.
  destruct (get_or_create_session request o) as [sid ck]. simpl.
  rewrite !lookup_delete_ne
    by first [ apply session_ne_user_id_key
             | apply session_ne_username_key
             | apply user_id_key_ne_username_key ].
  destruct (challenges st !! sid) as [[|c0 cs]|]; simpl; try discriminate.
  destruct (bytes_truthy (challenges st !! user_id_key sid)); simpl; try discriminate.
  destruct (challenges st !! username_key sid) as [pending|]; [|eauto].
  unfold decode_if_bytes, insert_user, insert_credential.
  repeat case_match; simplify_eq; simpl; discriminate.
Qed.

End NullUsername.

(** X15. While every request comes under a session id without ["_"], a
    pending challenge always has its pending username beside it: the two
    are stored together by both start endpoints and popped together by
    both finish endpoints. In such runs no register finish under such a
    session ends in the [IntegrityError] of a [NULL] username. *)
Theorem challenge_comes_with_username
    {L : PyLib} {G : Gateway} (cfg : Config)
    (calls : list (Call * Request * Oracle)) (st : State) :
  minted_sessions calls ->
  challenge_has_username st ->
  let st' := serve_all cfg calls st in
  challenge_has_username st'
  /\ (forall body request o,
        no_underscore (session_of request o) = true ->
        fst (register_finish cfg body request o st')
        <> Unhandled (IntegrityError "NOT NULL constraint failed: users.username")).
Proof.
  intros Hminted Hst st'.
  assert (Hinv : challenge_has_username st')
    by now apply serve_all_challenge_has_username.
  split; [exact Hinv|].
  intros body request o Hs Hout.
  apply register_finish_null_username in Hout as [Hsome Hnone].
  destruct (Hinv _ Hs Hsome) as [x Hx]. congruence.
Qed.

Lemma challenge_comes_with_username_witness :
  let calls :=
    [ (RegisterStartCall {| rs_username := "alice" |},
       Demo.with_session "a1", Demo.oracle "f" "u1" "CH1") ] in
  challenge_has_username
    (serve_all (L:=Demo.pylib) (G:=Demo.gateway) Demo.cfg calls initial_state).
Proof.
  intros calls.
  exact (proj1 (challenge_comes_with_username (L:=Demo.pylib) (G:=Demo.gateway)
                  Demo.cfg calls initial_state
                  ltac:(constructor; [reflexivity | constructor])
                  challenge_has_username_initial)).
Defined.

(** ** Registered users *)

Lemma find_is_some {A : Type} (key : A -> string) (k : string) (l : list A) (x : A) :
  In x l -> key x = k ->
  exists y, List.find (fun z => String.eqb (key z) k) l = Some y.
Proof.
  intros Hin Hkey.
  destruct (List.find _ l) as [y|] eqn:E; [eauto|].
  apply (List.find_none _ _ E) in Hin.
  rewrite Hkey, String.eqb_refl in Hin. discriminate Hin.
Qed.

Section Registered.
Context {L : PyLib} {G : Gateway} (cfg : Config).

Lemma serve_all_keeps_users calls st (u : UserRow) :
  In u (users (db st)) -> In u (users (db (serve_all cfg calls st))).
Proof.
  revert st. induction calls as [|[[call request] o] rest IH]; intros st Hin.
  - exact Hin.
  - simpl. apply IH.
    destruct (append_only_step _ _ (handle_db_step cfg call request o st))
      as (nu & _ & -> & _).
    apply in_or_app. now left.
Qed.

End Registered.

(** X5. A registered username stays taken. After a register finish that
    answered 200 with a (non-empty) username, and whatever requests are
    served afterwards, a register start for any spelling that normalizes
    to that username answers 409 and changes nothing, and a login start
    for it never answers 404. *)
Theorem registered_username_stays_taken
    {L : PyLib} {G : Gateway} (cfg : Config)
    (st : State) (body : RegisterFinishRequest) (request : Request) (o : Oracle)
    (name : string) (cookies : list (string * string))
    (calls : list (Call * Request * Oracle))
    (spelling : string) (request' : Request) (o' : Oracle) :
  fst (register_finish cfg body request o st) = Ok (StatusOk (Some name)) cookies ->
  str_lower (str_strip spelling) = name ->
  str_truthy (Some name) = true ->
  let later := serve_all cfg calls (snd (register_finish cfg body request o st)) in
  register_start cfg {| rs_username := spelling |} request' o' later
  = (HTTPException 409 "Username already registered. Try logging in instead.", later)
  /\ fst (login_start cfg {| ls_username := spelling |} request' o' later)
     <> HTTPException 404 "User not found. Register first.".
Proof.
  intros Hok Hnorm Htruthy later.
  destruct (register_finish_username cfg _ _ _ _ _ _ Hok)
    as (pending & name' & row & _ & _ & [= <-] & Husers & Hrow).
  assert (Hin : In row (users (db later))).
  { apply serve_all_keeps_users. rewrite Husers. apply in_or_app. right. now left. }
  destruct (find_is_some username_col name _ _ Hin Hrow) as [found Hfound].
  fold (select_user_by_username (db later) name) in Hfound.
  split.
  - unfold register_start.
    destruct (get_or_create_session request' o') as [sid ck]. simpl.
    rewrite Hnorm, Hfound.
    destruct name; [discriminate Htruthy | reflexivity].
  - unfold login_start.
    destruct (get_or_create_session request' o') as [sid ck]. simpl.
    rewrite Hnorm, Hfound. now destruct (decode_all _ _).
Qed.

Lemma registered_username_stays_taken_witness :
  let st :=
    snd (register_start (L:=Demo.pylib) Demo.cfg {| rs_username := "alice" |}
           (Demo.with_session "s") (Demo.oracle "f" "u1" "CH1") initial_state) in
  let registered :=
    snd (register_finish (L:=Demo.pylib) (G:=Demo.gateway) Demo.cfg
           {| rf_username := "alice";
              rf_credential := Demo.response "c1" "CH1" "K1" 0 |}
           (Demo.with_session "s") (Demo.oracle "f" "u2" "CH2") st) in
  fst (register_start (L:=Demo.pylib) Demo.cfg {| rs_username := " Alice " |}
         (Demo.with_session "t") (Demo.oracle "f" "u3" "CH3") registered)
  = HTTPException 409 "Username already registered. Try logging in instead.".
Proof.
  intros st registered.
  exact (f_equal fst
           (proj1 (registered_username_stays_taken (L:=Demo.pylib) (G:=Demo.gateway)
                     Demo.cfg st
                     {| rf_username := "alice";
                        rf_credential := Demo.response "c1" "CH1" "K1" 0 |}
                     (Demo.with_session "s") (Demo.oracle "f" "u2" "CH2")
                     "alice" [] [] " Alice "
                     (Demo.with_session "t") (Demo.oracle "f" "u3" "CH3")
                     eq_refl eq_refl eq_refl))).
Defined.

(** ** The base64 round trip *)

Lemma drop_two_equals_app (s : string) :
  Exact.drop_two_equals (s +:+ "==") = s.
Proof.
  induction s as [|c s IH]; [reflexivity|].
  change (String c s +:+ "==") with (String c (s +:+ "==")).
  destruct s as [|c' s]; [reflexivity|].
  change (String c' s +:+ "==") with (String c' (s +:+ "==")) in *.
  destruct (s +:+ "==") as [|c'' rest] eqn:E.
  - apply (f_equal String.length) in E. rewrite string_length_app in E.
    simpl in E. lia.
  - simpl in *. now rewrite IH.
Qed.

Lemma exact_b64_round_trip : b64_round_trip Exact.pylib.
Proof.
  intros b. simpl. f_equal.
  rewrite drop_two_equals_app. apply list_byte_of_string_of_list_byte.
Qed.

Section RoundTrip.
Context {L : PyLib}.

Lemma decode_all_encoded (bs : list bytes) :
  b64_round_trip L ->
  decode_all urlsafe_b64decode (List.map urlsafe_b64encode bs) = inl bs.
Proof.
  intros Hrt. induction bs as [|b bs IH]; [reflexivity|].
  simpl. now rewrite Hrt, IH.
Qed.

Lemma all_encoded (ids : list string) :
  (forall i, In i ids -> exists b, i = urlsafe_b64encode b) ->
  exists bs, ids = List.map urlsafe_b64encode bs.
Proof.
  induction ids as [|i ids IH]; intros H; [now exists []|].
  destruct (H i (or_introl eq_refl)) as [b ->].
  destruct IH as [bs ->]; [intros j Hj; apply H; now right|].
  now exists (b :: bs).
Qed.

Lemma select_credential_ids_stored (d : Database) (uid : string) :
  stored_as_b64 d ->
  forall i, In i (select_credential_ids d uid) -> exists b, i = urlsafe_b64encode b.
Proof.
  intros Hstored i Hin. unfold select_credential_ids in Hin.
  apply in_map_iff in Hin as (c & <- & Hc).
  apply filter_In in Hc as [Hc _]. apply (Hstored c Hc).
Qed.

End RoundTrip.

(** X3. In every state the server can reach, and with a base64 codec
    that decodes what it encoded (also with ["=="] appended), a login
    start for a registered username always answers 200: decoding the
    stored credential ids cannot fail. The allow-list holds exactly one
    credential id, the raw id whose encoding is stored for that user; the
    challenge and the normalized username are stored under the session
    and the database is unchanged. *)
Theorem registered_user_can_start_login
    {L : PyLib} {G : Gateway} (cfg : Config)
    (st : State) (body : LoginStartRequest) (request : Request) (o : Oracle)
    (user : UserRow) :
  reachable cfg st ->
  b64_round_trip L ->
  let name := str_lower (str_strip (ls_username body)) in
  select_user_by_username (db st) name = Some user ->
  let result := login_start cfg body request o st in
  let sid := session_of request o in
  exists raw_id,
    fst result
    = Ok (AuthenticationOptionsBody
            {| auth_rp_id := RP_ID cfg;
               auth_allow_credentials := [raw_id];
               auth_challenge := rnd_challenge o |})
         (snd (get_or_create_session request o))
    /\ select_credential_ids (db st) (user_id_col user) = [urlsafe_b64encode raw_id]
    /\ challenges (snd result) !! sid = Some (rnd_challenge o)
    /\ challenges (snd result) !! username_key sid = Some (str_encode name)
    /\ db (snd result) = db st.
Proof.
  intros Hreach Hrt name Huser result sid.
  assert (Hstored : stored_as_b64 (db st)).
  { revert Hreach. apply (reachable_db_invariant cfg stored_as_b64);
      [intros c [] | apply stored_as_b64_step]. }
  assert (Hone : one_credential_each (db st)).
  { revert Hreach. apply (reachable_db_invariant cfg one_credential_each);
      [reflexivity | apply one_credential_each_step]. }
  assert (Huniq : keys_unique (db st)).
  { revert Hreach. apply (reachable_db_invariant cfg keys_unique);
      [repeat split; constructor | apply keys_unique_step]. }
  destruct (all_encoded _ (select_credential_ids_stored (db st) (user_id_col user) Hstored))
    as [bs Hbs].
  assert (Hlen : length bs = 1%nat).
  { rewrite <- (length_map urlsafe_b64encode), <- Hbs.
    unfold select_credential_ids. rewrite length_map.
    rewrite (filter_map_length cred_user_id
               (fun i => String.eqb i (user_id_col user))).
    rewrite Hone. apply count_unique; [apply Huniq|].
    apply in_map. exact (proj1 (find_some_eqb _ _ _ _ Huser)). }
  destruct bs as [|raw_id [|? ?]]; try discriminate Hlen.
  exists raw_id. subst result sid. unfold login_start, session_of.
  destruct (get_or_create_session request o) as [sid ck]. simpl.
  fold name. rewrite Huser, Hbs, (decode_all_encoded [raw_id] Hrt). simpl.
  repeat split.
  - rewrite lookup_insert_ne by apply not_eq_sym, session_ne_username_key.
    apply lookup_insert_eq.
  - apply lookup_insert_eq.
Qed.

Lemma registered_user_can_start_login_witness :
  let st :=
    snd (handle (L:=Exact.pylib) (G:=Demo.gateway) Demo.cfg
           (RegisterFinishCall {| rf_username := "alice";
                                  rf_credential := Demo.response "c1" "CH1" "K1" 0 |})
           (Demo.with_session "s") (Demo.oracle "f" "u1" "CH1")
           (snd (handle (L:=Exact.pylib) (G:=Demo.gateway) Demo.cfg
                   (RegisterStartCall {| rs_username := "alice" |})
                   (Demo.with_session "s") (Demo.oracle "f" "u1" "CH1")
                   initial_state))) in
  exists raw_id,
    fst (login_start (L:=Exact.pylib) Demo.cfg {| ls_username := "Alice" |}
           (Demo.with_session "s") (Demo.oracle "f" "u2" "CH2") st)
    = Ok (AuthenticationOptionsBody
            {| auth_rp_id := "localhost";
               auth_allow_credentials := [raw_id];
               auth_challenge := list_byte_of_string "CH2" |}) [].
Proof.
  intros st.
  destruct (registered_user_can_start_login (L:=Exact.pylib) (G:=Demo.gateway)
              Demo.cfg st {| ls_username := "Alice" |}
              (Demo.with_session "s") (Demo.oracle "f" "u2" "CH2")
              {| user_id_col := "u1"; username_col := "alice";
                 user_created_at := 1700000000 |}
              (reachable_step Demo.cfg _ _ _ _
                 (reachable_step Demo.cfg _ _ _ _ (reachable_initial Demo.cfg)))
              exact_b64_round_trip eq_refl) as (raw_id & H & _).
  exists raw_id. exact H.
Defined.

(** ** The two ceremonies, start to finish *)

Lemma not_in_existsb {A : Type} (key : A -> string) (k : string) (l : list A) :
  ~ In k (List.map key l) ->
  existsb (fun x => String.eqb (key x) k) l = false.
Proof.
  induction l as [|x l IH]; simpl; [reflexivity|]. intros H.
  destruct (String.eqb_spec (key x) k) as [E | _]; [tauto|].
  apply IH. tauto.
Qed.

Lemma find_none_existsb {A : Type} (p : A -> bool) (l : list A) :
  List.find p l = None -> existsb p l = false.
Proof.
  induction l as [|x l IH]; simpl; [reflexivity|].
  destruct (p x); [discriminate | exact IH].
Qed.

Lemma find_snoc {A : Type} (p : A -> bool) (l : list A) (x : A) :
  List.find p l = None -> p x = true -> List.find p (l ++ [x]) = Some x.
Proof.
  induction l as [|y l IH]; simpl; intros Hl Hx; [now rewrite Hx|].
  destruct (p y); [discriminate | now apply IH].
Qed.

Section RoundTrips.
Context {L : PyLib} {G : Gateway} (cfg : Config).


End RoundTrips.

(** X12. Registration, start to finish. After a register start that
    answered 200, a register finish on the same session whose response
    the gateway verifies answers 200 with the normalized username, and
    commits exactly one user row and one credential row: the user id drawn
    at start, the normalized username, and the base64 text of the verified
    credential id and public key with the verified sign count. The user is
    then found by that username and the session has nothing pending. The
    drawn user id and the credential id must be new, the challenge and the
    user id non-empty, and the two stored strings must decode back. *)
Theorem registration_round_trip
    {L : PyLib} {G : Gateway} (cfg : Config)
    (st : State) (body : RegisterStartRequest) (request : Request) (o : Oracle)
    (options : ResponseBody) (cookies : list (string * string))
    (body2 : RegisterFinishRequest) (request2 : Request) (o2 : Oracle)
    (v : VerifiedRegistration) :
  let name := str_lower (str_strip (rs_username body)) in
  fst (register_start cfg body request o st) = Ok options cookies ->
  bytes_truthy (Some (rnd_challenge o)) = true ->
  bytes_truthy (Some (str_encode (rnd_user_id o))) = true ->
  bytes_decode (str_encode (rnd_user_id o)) = Some (rnd_user_id o) ->
  bytes_decode (str_encode name) = Some name ->
  session_of request2 o2 = session_of request o ->
  verify_registration_response (rf_credential body2) (rnd_challenge o)
    (RP_ID cfg) (ORIGIN cfg) = inl v ->
  ~ In (rnd_user_id o) (List.map user_id_col (users (db st))) ->
  ~ In (urlsafe_b64encode (credential_id v))
       (List.map credential_id_col (credentials (db st))) ->
  let sid := session_of request o in
  let result :=
    register_finish cfg body2 request2 o2 (snd (register_start cfg body request o st)) in
  let user :=
    {| user_id_col := rnd_user_id o; username_col := name;
       user_created_at := clock_user o2 |} in
  let credential :=
    {| credential_id_col := urlsafe_b64encode (credential_id v);
       cred_user_id := rnd_user_id o;
       public_key_col := urlsafe_b64encode (credential_public_key v);
       sign_count_col := sign_count v;
       cred_created_at := clock_credential o2 |} in
  fst result = Ok (StatusOk (Some name)) (snd (get_or_create_session request2 o2))
  /\ users (db (snd result)) = (users (db st) ++ [user])%list
  /\ credentials (db (snd result)) = (credentials (db st) ++ [credential])%list
  /\ select_user_by_username (db (snd result)) name = Some user
  /\ challenges (snd result) !! sid = None
  /\ challenges (snd result) !! user_id_key sid = None
  /\ challenges (snd result) !! username_key sid = None.
Proof.
  intros name Hok Hch_t Huid_t Huid_d Hname_d Hsame Hv Hnew_uid Hnew_cid
         sid result user credential.
  destruct (register_start_stores cfg body request o st options cookies Hok)
    as (Hch & Huid & Hname & Hsel & Hdb & _).
  fold sid name in Hch, Huid, Hname, Hsel.
  assert (Hkeys : challenges (snd result) !! sid = None
                  /\ challenges (snd result) !! user_id_key sid = None
                  /\ challenges (snd result) !! username_key sid = None).
  { subst result. rewrite register_finish_challenges, Hsame. fold sid.
    rewrite !lookup_delete.
    repeat split; repeat case_decide; try reflexivity; congruence. }
  assert (Hresult :
            fst result = Ok (StatusOk (Some name)) (snd (get_or_create_session request2 o2))
            /\ db (snd result)
               = {| users := users (db st) ++ [user];
                    credentials := credentials (db st) ++ [credential] |}).
  { subst result. revert Hsame. unfold register_finish, session_of at 1, pop.
    destruct (get_or_create_session request2 o2) as [sid2 ck2]. simpl.
    intros ->. fold sid.
    rewrite !lookup_delete_ne
      by first [ apply session_ne_user_id_key
               | apply session_ne_username_key
               | apply user_id_key_ne_username_key ].
    rewrite Hch, Huid, Hname, Hch_t, Huid_t. simpl.
    rewrite Huid_d. unfold decode_if_bytes. rewrite Hname_d, Hv, Hdb.
    unfold insert_user.
    rewrite (not_in_existsb user_id_col _ _ Hnew_uid).
    unfold select_user_by_username in Hsel.
    rewrite (find_none_existsb _ _ Hsel).
    unfold insert_credential. simpl.
    rewrite (not_in_existsb credential_id_col _ _ Hnew_cid). simpl.
    split; reflexivity. }
  destruct Hresult as [Hout Hdb2].
  split; [exact Hout|]. rewrite Hdb2. simpl.
  split; [reflexivity|]. split; [reflexivity|]. split; [|exact Hkeys].
  unfold select_user_by_username. simpl.
  apply find_snoc; [exact Hsel | apply String.eqb_refl].
Qed.

Lemma registration_round_trip_witness :
  let st1 :=
    snd (register_start (L:=Demo.pylib) Demo.cfg {| rs_username := " Alice " |}
           (Demo.with_session "s") (Demo.oracle "f" "u1" "CH1") initial_state) in
  let result :=
    register_finish (L:=Demo.pylib) (G:=Demo.gateway) Demo.cfg
      {| rf_username := "ignored";
         rf_credential := Demo.response "c1" "CH1" "K1" 0 |}
      (Demo.with_session "s") (Demo.oracle "f" "u2" "CH2") st1 in
  fst result = Ok (StatusOk (Some "alice")) []
  /\ List.map username_col (users (db (snd result))) = ["alice"].
Proof.
  intros st1 result.
  pose proof (registration_round_trip (L:=Demo.pylib) (G:=Demo.gateway) Demo.cfg
                initial_state {| rs_username := " Alice " |}
                (Demo.with_session "s") (Demo.oracle "f" "u1" "CH1") _ _
                {| rf_username := "ignored";
                   rf_credential := Demo.response "c1" "CH1" "K1" 0 |}
                (Demo.with_session "s") (Demo.oracle "f" "u2" "CH2") _
                eq_refl eq_refl eq_refl eq_refl eq_refl eq_refl eq_refl
                (fun H => H) (fun H => H)) as H.
  split; [exact (proj1 H)|].
  exact (f_equal (List.map username_col) (proj1 (proj2 H))).
Defined.



(** ** Restart *)


(** ** Stored counters *)

Lemma NoDup_map_eq {A : Type} (key : A -> string) (l : list A) (a b : A) :
  List.NoDup (List.map key l) -> In a l -> In b l -> key a = key b -> a = b.
Proof.
  induction l as [|x l IH]; simpl; [tauto|].
  intros Hnd Ha Hb E. inversion Hnd as [|? ? Hx Hl]; subst.
  destruct Ha as [-> | Ha], Hb as [-> | Hb]; auto.
  - exfalso. apply Hx. rewrite E. now apply in_map.
  - exfalso. apply Hx. rewrite <- E. now apply in_map.
Qed.

Lemma counter_accepted (reported known : Z) :
  counter_rejected reported known = false -> 0 <= reported -> known <= reported.
Proof.
  unfold counter_rejected. intros H Hpos.
  destruct (Z.leb_spec reported known) as [Hle | Hgt]; [|lia].
  rewrite andb_true_r in H. apply orb_false_elim in H as [H1 H2].
  apply Z.ltb_ge in H1, H2. lia.
Qed.

(** Updating the counter of a row to an accepted value lowers no stored
    counter, when credential ids are unique. *)
Lemma update_sign_count_monotone (d : Database) (row : CredentialRow) (count : Z) :
  List.NoDup (List.map credential_id_col (credentials d)) ->
  In row (credentials d) ->
  sign_count_col row <= count ->
  forall c, In c (credentials d) ->
  exists c',
    In c' (credentials (update_sign_count d count (credential_id_col row)))
    /\ credential_identity c' = credential_identity c
    /\ sign_count_col c <= sign_count_col c'.
Proof.
  intros Hnd Hrow Hle c Hc. unfold update_sign_count. simpl.
  eexists. split; [apply in_map; exact Hc|].
  destruct (String.eqb_spec (credential_id_col c) (credential_id_col row)) as [E | _].
  - rewrite (NoDup_map_eq credential_id_col _ c row Hnd Hc Hrow E).
    split; [reflexivity | exact Hle].
  - split; [reflexivity | lia].
Qed.

Section Counters.
Context {L : PyLib}
        (verify_registration :
           Credential -> bytes -> string -> string -> VerifiedRegistration + string)
        (assertion_ok : Credential -> bytes -> string -> string -> bytes -> bool)
        (reported : Credential -> Z)
        (cfg : Config).

#[local] Abbreviation G := (spec_gateway verify_registration assertion_ok reported).

(** Under the counter discipline, [login_finish] writes nothing or
    writes an accepted counter to the row it verified. *)
Lemma login_finish_spec_update body request o st :
  db (snd (login_finish (G:=G) cfg body request o st)) = db st
  \/ exists row,
       In row (credentials (db st))
       /\ counter_rejected (reported (lf_credential body)) (sign_count_col row) = false
       /\ db (snd (login_finish (G:=G) cfg body request o st))
          = update_sign_count (db st) (reported (lf_credential body))
              (credential_id_col row).
Proof.
  unfold login_finish, pop.
  destruct (get_or_create_session request o) as [sid ck]. simpl.
  repeat case_match; simpl; auto. right.
  match goal with
  | Hsel : select_credential_by_user _ _ = Some ?row,
    Hv : spec_verify_authentication _ _ _ _ _ _ _ _ = inl ?v |- _ =>
      exists row; unfold spec_verify_authentication in Hv;
      destruct (assertion_ok _ _ _ _ _); simpl in Hv; [|discriminate Hv];
      destruct (counter_rejected _ _) eqn:Hrej; [discriminate Hv|];
      injection Hv as <-; simpl;
      apply List.find_some in Hsel as [Hin _]; auto
  end.
Qed.

Lemma handle_counters_monotone call request o st :
  (forall credential, 0 <= reported credential) ->
  keys_unique (db st) ->
  forall c, In c (credentials (db st)) ->
  exists c',
    In c' (credentials (db (snd (handle (G:=G) cfg call request o st))))
    /\ credential_identity c' = credential_identity c
    /\ sign_count_col c <= sign_count_col c'.
Proof.
  intros Hpos (_ & _ & Hnd) c Hc.
  assert (Hsame : forall d, d = db st ->
                            exists c', In c' (credentials d)
                                       /\ credential_identity c' = credential_identity c
                                       /\ sign_count_col c <= sign_count_col c').
  { intros d ->. exists c. repeat split; [exact Hc | lia]. }
  destruct call as [body|body|body|body]; simpl.
  - apply Hsame, register_start_db.
  - destruct (register_finish_db_step (G:=G) cfg body request o st)
      as [E | (u & c0 & _ & -> & _)]; [now apply Hsame|].
    exists c. repeat split; [apply in_or_app; now left | lia].
  - apply Hsame, login_start_db.
  - destruct (login_finish_spec_update body request o st)
      as [E | (row & Hrow & Hacc & ->)]; [now apply Hsame|].
    apply update_sign_count_monotone; auto.
    now apply counter_accepted.
Qed.

Lemma serve_all_counters_monotone calls st :
  (forall credential, 0 <= reported credential) ->
  reachable (G:=G) cfg st ->
  forall c, In c (credentials (db st)) ->
  exists c',
    In c' (credentials (db (serve_all (G:=G) cfg calls st)))
    /\ credential_identity c' = credential_identity c
    /\ sign_count_col c <= sign_count_col c'.
Proof.
  intros Hpos. revert st.
  induction calls as [|[[call request] o] rest IH]; intros st Hreach c Hc.
  - exists c. repeat split; [exact Hc | lia].
  - simpl.
    assert (Huniq : keys_unique (db st)).
    { revert Hreach. apply (reachable_db_invariant (G:=G) cfg keys_unique);
        [repeat split; constructor | apply keys_unique_step]. }
    destruct (handle_counters_monotone call request o st Hpos Huniq c Hc)
      as (c1 & Hc1 & Hid1 & Hle1).
    destruct (IH _ (reachable_step (G:=G) cfg st call request o Hreach) c1 Hc1)
      as (c' & Hc' & Hid & Hle).
    exists c'. repeat split; [exact Hc' | congruence | lia].
Qed.

End Counters.

(** X16. Stored counters never decrease. With a gateway that follows the
    counter discipline of the specification and reports no negative
    counter, whatever requests are served from a reachable state, every
    credential row is still there with the same id, owner and key, and
    with a sign count at least what it was: an accepted login is the only
    thing that writes a counter, and it writes it to the one row it was
    checked against. *)
Theorem stored_counters_never_decrease
    {L : PyLib}
    (verify_registration :
       Credential -> bytes -> string -> string -> VerifiedRegistration + string)
    (assertion_ok : Credential -> bytes -> string -> string -> bytes -> bool)
    (reported : Credential -> Z)
    (cfg : Config) (st : State)
    (calls : list (Call * Request * Oracle)) (c : CredentialRow) :
  let G := spec_gateway verify_registration assertion_ok reported in
  (forall credential, 0 <= reported credential) ->
  reachable (G:=G) cfg st ->
  In c (credentials (db st)) ->
  exists c',
    In c' (credentials (db (serve_all (G:=G) cfg calls st)))
    /\ credential_identity c' = credential_identity c
    /\ sign_count_col c <= sign_count_col c'.
Proof.
  intros G Hpos Hreach Hc.
  now apply serve_all_counters_monotone.
Qed.

Lemma stored_counters_never_decrease_witness :
  let reported := fun credential => Z.max 0 (Demo.reported credential) in
  let G := spec_gateway Demo.verify_registration Demo.assertion_ok reported in
  let st :=
    snd (handle (L:=Demo.pylib) (G:=G) Demo.cfg
           (RegisterFinishCall {| rf_username := "alice";
                                  rf_credential := Demo.response "c1" "CH1" "K1" 2 |})
           (Demo.with_session "s") (Demo.oracle "f" "u1" "CH1")
           (snd (handle (L:=Demo.pylib) (G:=G) Demo.cfg
                   (RegisterStartCall {| rs_username := "alice" |})
                   (Demo.with_session "s") (Demo.oracle "f" "u1" "CH1")
                   initial_state))) in
  let calls :=
    [ (LoginStartCall {| ls_username := "alice" |},
       Demo.with_session "s", Demo.oracle "f" "u2" "CH2");
      (LoginFinishCall {| lf_username := "alice";
                          lf_credential := Demo.response "c1" "CH2" "K1" 3 |},
       Demo.with_session "s", Demo.oracle "f" "u3" "CH3") ] in
  List.map sign_count_col (credentials (db st)) = [2]
  /\ List.map sign_count_col
       (credentials (db (serve_all (L:=Demo.pylib) (G:=G) Demo.cfg calls st))) = [3]
  /\ exists c',
       In c' (credentials (db (serve_all (L:=Demo.pylib) (G:=G) Demo.cfg calls st)))
       /\ 2 <= sign_count_col c'.
Proof.
  intros reported G st calls.
  split; [reflexivity|]. split; [reflexivity|].
  destruct (stored_counters_never_decrease (L:=Demo.pylib)
              Demo.verify_registration Demo.assertion_ok reported Demo.cfg st calls
              {| credential_id_col := "c1"; cred_user_id := "u1";
                 public_key_col := "K1"; sign_count_col := 2;
                 cred_created_at := 1700000000 |}
              (fun credential => Z.le_max_l 0 (Demo.reported credential))
              (reachable_step (G:=G) Demo.cfg _ _ _ _
                 (reachable_step (G:=G) Demo.cfg _ _ _ _
                    (reachable_initial (G:=G) Demo.cfg)))
              (or_introl eq_refl)) as (c' & Hin & _ & Hle).
  exists c'. split; [exact Hin | exact Hle].
Defined.
